(** * Elevate: day rollover, end-of-day archive and focus sessions

    A shallow embedding of the state-bearing logic of [src/App.tsx]:
    the start-up effect with its automatic day rollover, the persistence
    effect, [performEndDay], [updateTask] and [handleFocusSessionEnd].

    Conventions of the embedding.
    - JavaScript numbers that hold counts, minutes, milliseconds and
      experience points are integers ([Z]).
    - A React handler closes over the state of the render it was created
      in.  A handler is therefore a function of that state [s]; every
      [setX (value)] overwrites one field of the pending state, the value
      being computed from [s], and [setX (prev => ...)] reads the pending
      state.
    - [Date.now ()] is an input: [now k] is what the [k]-th call made by the
      handler returns.  [new Date ().toISOString ().split ('T')[0]] is the
      input [todayStr].
    - [localStorage] is a record with one field per key the program uses. *)

From Stdlib Require Import ZArith String List Bool Lia.
From Stdlib Require Import DecimalString.
From stdpp Require Import base option list gmap strings.

Local Open Scope string_scope.
Local Open Scope list_scope.
Local Open Scope Z_scope.

(** ** Data model

    The fields of [Task] are the ones [addTask] writes, those of a session
    the ones [handleFocusSessionEnd] writes, those of [DayLog] the ones
    [performEndDay] writes.  Each record lives in a module of its own so
    that the fields keep the names they have in the source. *)

Inductive TaskType := count | duration.

#[global] Instance TaskType_eq_dec : EqDecision TaskType.
Proof. solve_decision. Defined.

Module Session.
Record t := mk { startTs : Z; endTs : Z; durationMs : Z }.
End Session.

Module Task.
(** [sessions] is [None] when the property is missing or is not an array:
    the code tests [Array.isArray (t.sessions)] wherever it reads it. *)
Record t := mk {
  id : string;
  title : string;
  category : string;
  type : TaskType;
  target : Z;
  unit : string;
  current : Z;
  sessions : option (list Session.t);
  tags : list string;
  createdAt : Z;
  updatedAt : Z }.

(** [Array.isArray (t.sessions) ? t.sessions : []] *)
Definition sessionsOrEmpty (x : t) : list Session.t :=
  match sessions x with Some l => l | None => [] end.

(** [{...t, sessions: Array.isArray (t.sessions) ? t.sessions : []}] *)
Definition migrate (x : t) : t :=
  mk (id x) (title x) (category x) (type x) (target x) (unit x)
     (current x) (Some (sessionsOrEmpty x)) (tags x) (createdAt x)
     (updatedAt x).

(** [{...t, current: 0, sessions: [], updatedAt: Date.now ()}] *)
Definition reset (stamp : Z) (x : t) : t :=
  mk (id x) (title x) (category x) (type x) (target x) (unit x)
     0 (Some []) (tags x) (createdAt x) stamp.

(** [{...t, current: c, sessions: l}] *)
Definition withProgress (c : Z) (l : list Session.t) (x : t) : t :=
  mk (id x) (title x) (category x) (type x) (target x) (unit x)
     c (Some l) (tags x) (createdAt x) (updatedAt x).
End Task.

Module DayLog.
Record stats_t := mkStats { completionRate : Z; totalFocusTimeMs : Z }.
Record t := mk { date : string; tasks : list Task.t; stats : stats_t }.
End DayLog.

Module UserProfile.
(** Modelled from the spec: the declaration of [UserProfile] in
    [types.ts] is missing.  The spec lists [onboarded], [xp] and
    presentation fields; the code reads [xp] as [userProfile.xp || 0], so
    the field may be missing ([None]). *)
Record t := mk {
  onboarded : bool;
  xp : option Z;
  presentation : list (string * string) }.

(** [userProfile.xp || 0] *)
Definition xpOrZero (p : t) : Z :=
  match xp p with Some x => x | None => 0 end.

(** [{...userProfile, xp: v}] *)
Definition withXp (v : Z) (p : t) : t :=
  mk (onboarded p) (Some v) (presentation p).
End UserProfile.

Module AIConfig.
Record t := mk {
  name : string;
  gender : string;
  voice : string;
  roles : list string;
  behaviors : list string }.
End AIConfig.

Definition DEFAULT_AI_CONFIG : AIConfig.t :=
  AIConfig.mk "Coach" "Male" "Deep" ["Coach"; "Strategist"]
              ["Straightforward"; "Focus-driven"].

Module ChatMessage.
Record t := mk { id : string; role : string; text : string; timestamp : Z }.
End ChatMessage.

Module Metrics.
(** What [runEvaluator] returns, as far as [App.tsx] reads it. *)
Record t := mk { completionRate : Z; streak : Z; summary : string }.
End Metrics.

Module RewardState.
Record t := mk { isOpen : bool; streak : Z; quote : string }.
End RewardState.

(** [n.toString ()] for an integer [n]. *)
Definition toString (n : Z) : string := NilZero.string_of_int (Z.to_int n).

(** ** Application state: the [useState] cells the modelled code touches *)

Module AppState.
Record t := mk {
  userProfile : option UserProfile.t;
  aiConfig : AIConfig.t;
  theme : string;
  tasks : list Task.t;
  history : list DayLog.t;
  lastActiveDate : string;
  activeTaskForFocus : option Task.t;
  rewardState : RewardState.t;
  isAutoSpeechEnabled : bool;
  messages : list ChatMessage.t }.

(** The initial values given to [useState]. *)
Definition initial : t :=
  mk None DEFAULT_AI_CONFIG "Focus" [] [] "" None
     (RewardState.mk false 0 "") false [].

Definition setUserProfile (v : option UserProfile.t) (s : t) : t :=
  mk v (aiConfig s) (theme s) (tasks s) (history s) (lastActiveDate s)
     (activeTaskForFocus s) (rewardState s) (isAutoSpeechEnabled s)
     (messages s).
Definition setAiConfig (v : AIConfig.t) (s : t) : t :=
  mk (userProfile s) v (theme s) (tasks s) (history s) (lastActiveDate s)
     (activeTaskForFocus s) (rewardState s) (isAutoSpeechEnabled s)
     (messages s).
Definition setTheme (v : string) (s : t) : t :=
  mk (userProfile s) (aiConfig s) v (tasks s) (history s) (lastActiveDate s)
     (activeTaskForFocus s) (rewardState s) (isAutoSpeechEnabled s)
     (messages s).
Definition setTasks (v : list Task.t) (s : t) : t :=
  mk (userProfile s) (aiConfig s) (theme s) v (history s) (lastActiveDate s)
     (activeTaskForFocus s) (rewardState s) (isAutoSpeechEnabled s)
     (messages s).
Definition setHistory (v : list DayLog.t) (s : t) : t :=
  mk (userProfile s) (aiConfig s) (theme s) (tasks s) v (lastActiveDate s)
     (activeTaskForFocus s) (rewardState s) (isAutoSpeechEnabled s)
     (messages s).
Definition setLastActiveDate (v : string) (s : t) : t :=
  mk (userProfile s) (aiConfig s) (theme s) (tasks s) (history s) v
     (activeTaskForFocus s) (rewardState s) (isAutoSpeechEnabled s)
     (messages s).
Definition setActiveTaskForFocus (v : option Task.t) (s : t) : t :=
  mk (userProfile s) (aiConfig s) (theme s) (tasks s) (history s)
     (lastActiveDate s) v (rewardState s) (isAutoSpeechEnabled s)
     (messages s).
Definition setRewardState (v : RewardState.t) (s : t) : t :=
  mk (userProfile s) (aiConfig s) (theme s) (tasks s) (history s)
     (lastActiveDate s) (activeTaskForFocus s) v (isAutoSpeechEnabled s)
     (messages s).
Definition setIsAutoSpeechEnabled (v : bool) (s : t) : t :=
  mk (userProfile s) (aiConfig s) (theme s) (tasks s) (history s)
     (lastActiveDate s) (activeTaskForFocus s) (rewardState s) v
     (messages s).
Definition setMessages (v : list ChatMessage.t) (s : t) : t :=
  mk (userProfile s) (aiConfig s) (theme s) (tasks s) (history s)
     (lastActiveDate s) (activeTaskForFocus s) (rewardState s)
     (isAutoSpeechEnabled s) v.
(** [setMessages (prev => [...prev, m])] *)
Definition pushMessage (m : ChatMessage.t) (s : t) : t :=
  mk (userProfile s) (aiConfig s) (theme s) (tasks s) (history s)
     (lastActiveDate s) (activeTaskForFocus s) (rewardState s)
     (isAutoSpeechEnabled s) (messages s ++ [m]).
End AppState.

(** ** [localStorage]

    A key holding JSON text either parses to a value of the type the
    program expects or makes [JSON.parse] throw.  [None] stands for a key
    that is missing or holds the empty string: [getItem] then returns a
    falsy value, which is all the code tests. *)

Inductive Json (A : Type) := Malformed | WellFormed (a : A).
Arguments Malformed {A}.
Arguments WellFormed {A} a.

(** [JSON.parse]: [None] is a thrown [SyntaxError]. *)
Definition JSON_parse {A} (j : Json A) : option A :=
  match j with Malformed => None | WellFormed a => Some a end.

(** [JSON.stringify] of a value, as the text stored under a key. *)
Definition JSON_stringify {A} (a : A) : Json A := WellFormed a.

(** Truthiness of a string read with [getItem]. *)
Definition truthy (o : option string) : bool :=
  match o with
  | Some s => negb (String.eqb s "")
  | None => false
  end.

Module Storage.
Record t := mk {
  elevate_user : option (Json UserProfile.t);
  elevate_ai : option (Json AIConfig.t);
  elevate_theme : option string;
  elevate_tasks : option (Json (list Task.t));
  elevate_history : option (Json (list DayLog.t));
  elevate_last_date : option string;
  elevate_auto_speech : option (Json bool) }.

Definition empty : t := mk None None None None None None None.

Definition setUser (v : Json UserProfile.t) (st : t) : t :=
  mk (Some v) (elevate_ai st) (elevate_theme st) (elevate_tasks st)
     (elevate_history st) (elevate_last_date st) (elevate_auto_speech st).
Definition setAi (v : Json AIConfig.t) (st : t) : t :=
  mk (elevate_user st) (Some v) (elevate_theme st) (elevate_tasks st)
     (elevate_history st) (elevate_last_date st) (elevate_auto_speech st).
Definition setThemeKey (v : string) (st : t) : t :=
  mk (elevate_user st) (elevate_ai st) (Some v) (elevate_tasks st)
     (elevate_history st) (elevate_last_date st) (elevate_auto_speech st).
Definition setTasksKey (v : Json (list Task.t)) (st : t) : t :=
  mk (elevate_user st) (elevate_ai st) (elevate_theme st) (Some v)
     (elevate_history st) (elevate_last_date st) (elevate_auto_speech st).
Definition setHistoryKey (v : Json (list DayLog.t)) (st : t) : t :=
  mk (elevate_user st) (elevate_ai st) (elevate_theme st) (elevate_tasks st)
     (Some v) (elevate_last_date st) (elevate_auto_speech st).
Definition setLastDate (v : string) (st : t) : t :=
  mk (elevate_user st) (elevate_ai st) (elevate_theme st) (elevate_tasks st)
     (elevate_history st) (Some v) (elevate_auto_speech st).
Definition setAutoSpeech (v : Json bool) (st : t) : t :=
  mk (elevate_user st) (elevate_ai st) (elevate_theme st) (elevate_tasks st)
     (elevate_history st) (elevate_last_date st) (Some v).
End Storage.

(** ** Small pieces of the JavaScript library *)

(** [Math.round (a / b)] for a positive [b]: the quotient rounded to the
    nearest integer, a tie going up. *)
Definition Math_round_div (a b : Z) : Z := (2 * a + b) / (2 * b).

(** [JSON.parse (JSON.stringify (v))] on values: a structural copy of a
    value is that value.  What the copy shares with the original is the
    subject of [Module Heap] below. *)
Definition deepCopy {A} (v : A) : A := v.

(** [tasks.map (t => ({...t, current: 0, sessions: [], updatedAt:
    Date.now ()}))], the first call of [Date.now] being call number [k]. *)
Definition resetTasks (now : nat -> Z) (k : nat) (ts : list Task.t)
  : list Task.t :=
  imap (fun i x => Task.reset (now (k + i)%nat) x) ts.

(** [currentTasks.some (t => t.current > 0)] *)
Definition hasProgress (ts : list Task.t) : bool :=
  existsb (fun x => 0 <? Task.current x) ts.

(** The day-end bonus of [performEndDay]. *)
Definition bonusXpOf (completionRate : Z) : Z :=
  if 80 <=? completionRate then 100
  else if 50 <=? completionRate then 50
  else 0.

(** ** The program *)

Section Program.

(** [runEvaluator] lives in [utils/tracker], which is not part of the
    sources at hand: the program is verified for every evaluator.  The
    spec describes it as a pure function of its arguments. *)
Variable runEvaluator :
  list Task.t -> list DayLog.t -> option UserProfile.t -> Metrics.t.

(** *** The start-up effect ([useEffect (..., [])], lines 67-161)

    The effect runs once, on the state [useState] initialised.  Its first
    part (lines 75-119) loads what is stored; an unguarded [JSON.parse]
    that throws aborts the effect ([None]).  It hands over to the rollover
    logic the locals [currentTasks] and [currentHistory], the pending
    state, and the number of calls made to [Date.now] so far. *)

Definition loadStored (now : nat -> Z) (st : Storage.t)
  : option (list Task.t * list DayLog.t * AppState.t * nat) :=
  let s0 := AppState.initial in
  let savedUser := Storage.elevate_user st in
  let savedAi := Storage.elevate_ai st in
  let savedTheme := Storage.elevate_theme st in
  let savedTasks := Storage.elevate_tasks st in
  let savedHistory := Storage.elevate_history st in
  let savedLastDate := Storage.elevate_last_date st in
  let savedAutoSpeech := Storage.elevate_auto_speech st in
  p ← match savedUser with
      | Some j => u ← JSON_parse j; Some (AppState.setUserProfile (Some u) s0)
      | None => Some s0
      end;
  p ← match savedAi with
      | Some j => a ← JSON_parse j; Some (AppState.setAiConfig a p)
      | None => Some p
      end;
  let p := if truthy savedTheme
           then AppState.setTheme (default "" savedTheme) p else p in
  p ← match savedAutoSpeech with
      | Some j => b ← JSON_parse j; Some (AppState.setIsAutoSpeechEnabled b p)
      | None => Some p
      end;
  (* Load tasks with migration; a failure is caught and logged. *)
  let '(currentTasks, p) :=
    match savedTasks with
    | Some (WellFormed parsed) =>
        let currentTasks := map Task.migrate parsed in
        (currentTasks, AppState.setTasks currentTasks p)
    | Some Malformed => ([], p)
    | None => ([], p)
    end in
  '(currentHistory, p) ←
    match savedHistory with
    | Some j => h ← JSON_parse j; Some (h, AppState.setHistory h p)
    | None => Some ([], p)
    end;
  let p := if truthy savedLastDate
           then AppState.setLastActiveDate (default "" savedLastDate) p
           else p in
  (* Initial message *)
  let greet :=
    bool_decide (is_Some savedUser)
    && (length (AppState.messages s0) =? 0)%nat in
  let p :=
    if greet
    then AppState.setMessages
           [ChatMessage.mk "init" "model"
              "Tracker active. Engine ready. How are we executing today?"
              (now 0%nat)] p
    else p in
  Some (currentTasks, currentHistory, p, if greet then 1%nat else 0%nat).

(** The automatic day rollover (lines 121-158). *)

Definition automaticRollover (todayStr : string) (now : nat -> Z)
    (k : nat) (currentTasks : list Task.t) (currentHistory : list DayLog.t)
    (p : AppState.t) (st : Storage.t) : AppState.t * Storage.t :=
  let savedLastDate := Storage.elevate_last_date st in
  if truthy savedLastDate
     && negb (String.eqb (default "" savedLastDate) todayStr)
  then
    let '(p, st) :=
      if hasProgress currentTasks then
        let metrics := runEvaluator currentTasks currentHistory None in
        let log :=
          DayLog.mk (default "" savedLastDate) (deepCopy currentTasks)
            (DayLog.mkStats (Metrics.completionRate metrics) 0) in
        let newHist := currentHistory ++ [log] in
        (AppState.setHistory newHist p,
         Storage.setHistoryKey (JSON_stringify newHist) st)
      else (p, st) in
    let reset := resetTasks now k currentTasks in
    let p := AppState.setTasks reset p in
    let st := Storage.setTasksKey (JSON_stringify reset) st in
    let p := AppState.setLastActiveDate todayStr p in
    let st := Storage.setLastDate todayStr st in
    let k := (k + length currentTasks)%nat in
    let p := AppState.pushMessage
               (ChatMessage.mk (toString (now k)) "system"
                  ("New day detected. Previous data from "
                   +:+ default "" savedLastDate
                   +:+ " has been archived.")
                  (now (S k))) p in
    (p, st)
  else if negb (truthy savedLastDate) then
    (AppState.setLastActiveDate todayStr p, Storage.setLastDate todayStr st)
  else (p, st).

Definition startupEffect (todayStr : string) (now : nat -> Z)
    (st : Storage.t) : option (AppState.t * Storage.t) :=
  '(currentTasks, currentHistory, p, k) ← loadStored now st;
  Some (automaticRollover todayStr now k currentTasks currentHistory p st).

(** *** The persistence effect (lines 176-185)

    It runs after every render in which one of [userProfile], [aiConfig],
    [theme], [tasks], [history], [isAutoSpeechEnabled] changed. *)

Definition persistEffect (todayStr : string) (s : AppState.t)
    (st : Storage.t) : Storage.t :=
  let st := match AppState.userProfile s with
            | Some u => Storage.setUser (JSON_stringify u) st
            | None => st
            end in
  let st := Storage.setAi (JSON_stringify (AppState.aiConfig s)) st in
  let st := Storage.setThemeKey (AppState.theme s) st in
  let st := Storage.setTasksKey (JSON_stringify (AppState.tasks s)) st in
  let st := Storage.setHistoryKey (JSON_stringify (AppState.history s)) st in
  let st := Storage.setAutoSpeech
              (JSON_stringify (AppState.isAutoSpeechEnabled s)) st in
  Storage.setLastDate todayStr st.

(** *** [updateTask]

    [s] is the state the handler closed over, [p] the pending state its
    setters write to. *)

Definition updateTask (s p : AppState.t) (updatedTask : Task.t)
  : AppState.t :=
  let oldTask :=
    find (fun x => String.eqb (Task.id x) (Task.id updatedTask))
         (AppState.tasks s) in
  let completedNow :=
    match oldTask with
    | Some o =>
        (Task.current o <? Task.target o)
        && (Task.target updatedTask <=? Task.current updatedTask)
    | None => false
    end in
  let p :=
    AppState.setTasks
      (map (fun x => if String.eqb (Task.id x) (Task.id updatedTask)
                     then updatedTask else x)
           (AppState.tasks s)) p in
  match AppState.userProfile s with
  | Some u =>
      if completedNow
      then AppState.setUserProfile
             (Some (UserProfile.withXp (UserProfile.xpOrZero u + 50) u)) p
      else p
  | None => p
  end.

(** *** [performEndDay] (lines 293-338)

    [quote] is what [getRandomQuote ()] returns if it is called. *)

Definition performEndDay (todayStr : string) (now : nat -> Z)
    (quote : string) (s : AppState.t) (st : Storage.t)
  : AppState.t * Storage.t :=
  let tasks := AppState.tasks s in
  let history := AppState.history s in
  let userProfile := AppState.userProfile s in
  let metrics := runEvaluator tasks history userProfile in
  let bonusXp := bonusXpOf (Metrics.completionRate metrics) in
  let log :=
    DayLog.mk todayStr (deepCopy tasks)
      (DayLog.mkStats (Metrics.completionRate metrics) 0) in
  let newHistory := history ++ [log] in
  let st := Storage.setHistoryKey (JSON_stringify newHistory) st in
  let p := AppState.setHistory newHistory s in
  let reset := resetTasks now 0 tasks in
  let st := Storage.setTasksKey (JSON_stringify reset) st in
  let p := AppState.setTasks reset p in
  let p :=
    match userProfile with
    | Some u =>
        AppState.setUserProfile
          (Some (UserProfile.withXp (UserProfile.xpOrZero u + bonusXp) u)) p
    | None => p
    end in
  let k := length tasks in
  let p := AppState.pushMessage
             (ChatMessage.mk (toString (now k)) "model"
                ("Day archived. You gained " +:+ toString bonusXp
                 +:+ " XP. Summary: " +:+ Metrics.summary metrics)
                (now (S k))) p in
  (* Check for streak surprise *)
  let p :=
    if 0 <? Metrics.streak metrics
    then AppState.setRewardState
           (RewardState.mk true (Metrics.streak metrics) quote) p
    else p in
  (p, st).

(** *** [handleFocusSessionEnd] (lines 340-359) *)

Definition handleFocusSessionEnd (now : nat -> Z) (durationMs : Z)
    (s : AppState.t) : AppState.t :=
  match AppState.activeTaskForFocus s with
  | Some active =>
      let durationMin := Math_round_div durationMs 60000 in
      let newCurrent :=
        match Task.type active with
        | duration => Task.current active + durationMin
        | count => Task.current active
        end in
      let currentSessions := Task.sessionsOrEmpty active in
      let updated :=
        Task.withProgress newCurrent
          (currentSessions
           ++ [Session.mk (now 0%nat - durationMs) (now 1%nat) durationMs])
          active in
      let p := updateTask s s updated in
      let p :=
        match AppState.userProfile s with
        | Some u =>
            if 0 <? durationMin
            then AppState.setUserProfile
                   (Some (UserProfile.withXp
                            (UserProfile.xpOrZero u + durationMin * 2) u)) p
            else p
        | None => p
        end in
      AppState.setActiveTaskForFocus None p
  | None => s
  end.

End Program.

(** ** What the claims speak about *)

(** [new] is [old] after the reset: progress and sessions cleared, identity
    and every descriptive field kept. *)
Definition isResetOf (old new : Task.t) : Prop :=
  Task.current new = 0
  ∧ Task.sessions new = Some []
  ∧ Task.id new = Task.id old
  ∧ Task.title new = Task.title old
  ∧ Task.target new = Task.target old
  ∧ Task.unit new = Task.unit old
  ∧ Task.category new = Task.category old
  ∧ Task.type new = Task.type old
  ∧ Task.tags new = Task.tags old
  ∧ Task.createdAt new = Task.createdAt old.

(** The task list and the history a well-formed store holds. *)
Definition storedTasks (st : Storage.t) : list Task.t :=
  match Storage.elevate_tasks st with
  | Some (WellFormed l) => l
  | _ => []
  end.

Definition storedHistory (st : Storage.t) : list DayLog.t :=
  match Storage.elevate_history st with
  | Some (WellFormed l) => l
  | _ => []
  end.

Definition storedProfile (st : Storage.t) : option UserProfile.t :=
  match Storage.elevate_user st with
  | Some (WellFormed u) => Some u
  | _ => None
  end.

(** No key read by an unguarded [JSON.parse] holds text that does not
    parse.  Every value the program itself writes satisfies this. *)
Definition parsesOrAbsent {A} (o : option (Json A)) : bool :=
  match o with Some Malformed => false | _ => true end.

Definition storageParses (st : Storage.t) : bool :=
  parsesOrAbsent (Storage.elevate_user st)
  && parsesOrAbsent (Storage.elevate_ai st)
  && parsesOrAbsent (Storage.elevate_auto_speech st)
  && parsesOrAbsent (Storage.elevate_history st).

(** The date the state carries after loading. *)
Definition loadedDate (st : Storage.t) : string :=
  if truthy (Storage.elevate_last_date st)
  then default "" (Storage.elevate_last_date st) else "".

(** What [handleFocusSessionEnd] hands to [updateTask]. *)
Definition focusUpdate (now : nat -> Z) (durationMs : Z) (active : Task.t)
  : Task.t :=
  Task.withProgress
    (match Task.type active with
     | duration => Task.current active + Math_round_div durationMs 60000
     | count => Task.current active
     end)
    (Task.sessionsOrEmpty active
     ++ [Session.mk (now 0%nat - durationMs) (now 1%nat) durationMs])
    active.

(** The profile [after] is the profile [before] with [n] more xp, a missing
    xp counting as 0, stated on the fields: the xp field of [after] holds
    that sum, the other fields are those of [before]; where there was no
    profile there is none. *)
Definition xpAwarded (n : Z) (before after : option UserProfile.t) : Prop :=
  match before with
  | Some u =>
      ∃ u', after = Some u'
            ∧ UserProfile.xp u' = Some (default 0 (UserProfile.xp u) + n)
            ∧ UserProfile.onboarded u' = UserProfile.onboarded u
            ∧ UserProfile.presentation u' = UserProfile.presentation u
  | None => after = None
  end.

(** [new] is [old] with progress and sessions replaced: what the spread
    in [handleFocusSessionEnd] keeps. *)
Definition isFocusUpdateOf (old new : Task.t) : Prop :=
  Task.id new = Task.id old
  ∧ Task.title new = Task.title old
  ∧ Task.category new = Task.category old
  ∧ Task.type new = Task.type old
  ∧ Task.target new = Task.target old
  ∧ Task.unit new = Task.unit old
  ∧ Task.tags new = Task.tags old
  ∧ Task.createdAt new = Task.createdAt old
  ∧ Task.updatedAt new = Task.updatedAt old.

(** ** A reference evaluator *)

Module Evaluator.
(** Modelled from the spec: [runEvaluator] of [utils/tracker] is missing.
    Section 4.1 of the spec: the completion rate of an empty task set is
    0, otherwise the mean, rounded to the nearest integer, of each task's
    [min (current / target, 1) * 100], a task whose target is not
    positive counting as complete; the streak is the number of most
    recent history entries whose rate is at least 50.  The wording of the
    summary is not given; it is some fixed function of the two numbers.
    The program is verified for every evaluator; this one serves to run
    it on examples. *)

(** The sum of the clamped percentages as a fraction [(num, den)]. *)
Fixpoint ratioSum (ts : list Task.t) : Z * Z :=
  match ts with
  | [] => (0, 1)
  | x :: r =>
      let '(n, d) := ratioSum r in
      if Task.target x <=? 0 then (n + 100 * d, d)
      else (n * Task.target x
            + 100 * Z.min (Task.current x) (Task.target x) * d,
            d * Task.target x)
  end.

Definition completionRate (ts : list Task.t) : Z :=
  match ts with
  | [] => 0
  | _ => let '(n, d) := ratioSum ts in
         Math_round_div n (d * Z.of_nat (length ts))
  end.

Fixpoint qualifying (newestFirst : list DayLog.t) : Z :=
  match newestFirst with
  | [] => 0
  | l :: r =>
      if 50 <=? DayLog.completionRate (DayLog.stats l)
      then 1 + qualifying r else 0
  end.

Definition streak (history : list DayLog.t) : Z := qualifying (rev history).

Definition runEvaluator (ts : list Task.t) (history : list DayLog.t)
    (profile : option UserProfile.t) : Metrics.t :=
  Metrics.mk (completionRate ts) (streak history)
    (toString (completionRate ts) +:+ "% complete, streak "
     +:+ toString (streak history)).
End Evaluator.

(** ** Objects and references

    The values above cannot tell a copy from the original.  To speak of
    what a day log shares with the live task list, the archive and the
    reset are modelled a second time on a store of objects: an array holds
    references, a task object holds references to its [sessions] and
    [tags] arrays, a spread copies references, and [JSON.parse] builds new
    objects throughout. *)

Module Heap.

Record taskObj := mkTask {
  id : string;
  title : string;
  category : string;
  type : TaskType;
  target : Z;
  unit : string;
  current : Z;
  sessions : option nat;
  tags : nat;
  createdAt : Z;
  updatedAt : Z }.

Inductive obj :=
| OSession (v : Session.t)
| OStrings (l : list string)
| OArray (elems : list nat)
| OTask (o : taskObj)
| OStats (v : DayLog.stats_t)
| ODayLog (date : string) (tasks : nat) (stats : nat).

Abbreviation heap := (gmap nat obj).

(** Creating an object yields a reference no object has yet. *)
Definition alloc (o : obj) (h : heap) : nat * heap :=
  let l := fresh (dom h) in (l, <[l := o]> h).

Fixpoint allocEach {A} (f : A -> heap -> nat * heap) (vs : list A)
    (h : heap) : list nat * heap :=
  match vs with
  | [] => ([], h)
  | v :: r =>
      let '(l, h) := f v h in
      let '(ls, h) := allocEach f r h in
      (l :: ls, h)
  end.

(** *** Reading a structure off the store ([JSON.stringify]) *)

Definition readArray {A} (r : heap -> nat -> option A) (h : heap) (l : nat)
  : option (list A) :=
  match h !! l with
  | Some (OArray ls) => mapM (r h) ls
  | _ => None
  end.

Definition readSession (h : heap) (l : nat) : option Session.t :=
  match h !! l with
  | Some (OSession v) => Some v
  | _ => None
  end.

Definition readStrings (h : heap) (l : nat) : option (list string) :=
  match h !! l with
  | Some (OStrings v) => Some v
  | _ => None
  end.

Definition readTask (h : heap) (l : nat) : option Task.t :=
  match h !! l with
  | Some (OTask o) =>
      ss ← match sessions o with
           | Some sl => Some <$> readArray readSession h sl
           | None => Some None
           end;
      tg ← readStrings h (tags o);
      Some (Task.mk (id o) (title o) (category o) (type o) (target o)
              (unit o) (current o) ss tg (createdAt o) (updatedAt o))
  | _ => None
  end.

Definition readTasks : heap -> nat -> option (list Task.t) :=
  readArray readTask.

(** *** The references a reading goes through *)

Definition fpArray (fp : heap -> nat -> gset nat) (h : heap) (l : nat)
  : gset nat :=
  {[l]} ∪ match h !! l with
          | Some (OArray ls) => ⋃ (fp h <$> ls)
          | _ => ∅
          end.

Definition fpLeaf (h : heap) (l : nat) : gset nat := {[l]}.

Definition fpTask (h : heap) (l : nat) : gset nat :=
  {[l]} ∪ match h !! l with
          | Some (OTask o) =>
              {[tags o]}
              ∪ match sessions o with
                | Some sl => fpArray fpLeaf h sl
                | None => ∅
                end
          | _ => ∅
          end.

Definition fpTasks : heap -> nat -> gset nat := fpArray fpTask.

(** *** Building a structure from a value ([JSON.parse]) *)

Definition parseArray {A} (f : A -> heap -> nat * heap) (vs : list A)
    (h : heap) : nat * heap :=
  let '(ls, h) := allocEach f vs h in alloc (OArray ls) h.

Definition parseSession (v : Session.t) (h : heap) : nat * heap :=
  alloc (OSession v) h.

Definition parseTask (v : Task.t) (h : heap) : nat * heap :=
  let '(sl, h) :=
    match Task.sessions v with
    | Some ss => let '(l, h) := parseArray parseSession ss h in (Some l, h)
    | None => (None, h)
    end in
  let '(tl, h) := alloc (OStrings (Task.tags v)) h in
  alloc (OTask (mkTask (Task.id v) (Task.title v) (Task.category v)
                  (Task.type v) (Task.target v) (Task.unit v)
                  (Task.current v) sl tl (Task.createdAt v)
                  (Task.updatedAt v))) h.

Definition parseTasks : list Task.t -> heap -> nat * heap :=
  parseArray parseTask.

(** [JSON.parse (JSON.stringify (tasks))] *)
Definition jsonClone (tasksRef : nat) (h : heap) : option (nat * heap) :=
  v ← readTasks h tasksRef; Some (parseTasks v h).

(** *** Archive and reset

    [rate] is [metrics.completionRate], computed before. *)

(** The day log and the new history array (lines 301-312, 128-139). *)
Definition archive (date : string) (rate : Z) (tasksRef historyRef : nat)
    (h : heap) : option (nat * nat * heap) :=
  '(snap, h) ← jsonClone tasksRef h;
  let '(stats, h) := alloc (OStats (DayLog.mkStats rate 0)) h in
  let '(log, h) := alloc (ODayLog date snap stats) h in
  match h !! historyRef with
  | Some (OArray logs) =>
      let '(newHistory, h) := alloc (OArray (logs ++ [log])) h in
      Some (log, newHistory, h)
  | _ => None
  end.

(** [{...t, current: 0, sessions: [], updatedAt: Date.now ()}]: a new
    object with a new, empty sessions array; [tags] is the reference the
    old object holds. *)
Definition resetTask (stamp : Z) (l : nat) (h : heap)
  : option (nat * heap) :=
  match h !! l with
  | Some (OTask o) =>
      let '(sl, h) := alloc (OArray []) h in
      Some (alloc (OTask (mkTask (id o) (title o) (category o) (type o)
                            (target o) (unit o) 0 (Some sl) (tags o)
                            (createdAt o) stamp)) h)
  | _ => None
  end.

Fixpoint resetEach (now : nat -> Z) (k : nat) (ls : list nat) (h : heap)
  : option (list nat * heap) :=
  match ls with
  | [] => Some ([], h)
  | l :: r =>
      '(l', h) ← resetTask (now k) l h;
      '(r', h) ← resetEach now (S k) r h;
      Some (l' :: r', h)
  end.

(** [tasks.map (t => ({...t, current: 0, ...}))] (lines 314, 142) *)
Definition resetTasks (now : nat -> Z) (k : nat) (tasksRef : nat)
    (h : heap) : option (nat * heap) :=
  match h !! tasksRef with
  | Some (OArray ls) =>
      '(ls', h) ← resetEach now k ls h;
      Some (alloc (OArray ls') h)
  | _ => None
  end.

(** What the two paths leave behind: the day log if one was made, the
    history array, the task array, and the store. *)
Record outcome := mkOutcome {
  logRef : option nat;
  newHistoryRef : nat;
  newTasksRef : nat;
  store : heap }.

(** Lines 301-316 of [performEndDay]. *)
Definition performEndDay (todayStr : string) (rate : Z) (now : nat -> Z)
    (tasksRef historyRef : nat) (h : heap) : option outcome :=
  '(log, newHistory, h) ← archive todayStr rate tasksRef historyRef h;
  '(reset, h) ← resetTasks now 0 tasksRef h;
  Some (mkOutcome (Some log) newHistory reset h).

(** Lines 124-144 of the start-up effect, [tasksRef] and [historyRef]
    being [currentTasks] and [currentHistory]. *)
Definition automaticRollover (savedLastDate : string) (rate : Z)
    (now : nat -> Z) (k : nat) (tasksRef historyRef : nat) (h : heap)
  : option outcome :=
  v ← readTasks h tasksRef;
  '(log, hist, h) ←
    (if hasProgress v
     then '(log, newHist, h) ←
            archive savedLastDate rate tasksRef historyRef h;
          Some (Some log, newHist, h)
     else Some (None, historyRef, h));
  '(reset, h) ← resetTasks now k tasksRef h;
  Some (mkOutcome log hist reset h).

(** The tasks a day log holds. *)
Definition readLogTasks (h : heap) (log : nat) : option (list Task.t) :=
  match h !! log with
  | Some (ODayLog _ snap _) => readTasks h snap
  | _ => None
  end.

Definition fpLogTasks (h : heap) (log : nat) : gset nat :=
  {[log]} ∪ match h !! log with
            | Some (ODayLog _ snap _) => fpTasks h snap
            | _ => ∅
            end.

End Heap.

Arguments Heap.alloc : simpl never.
Arguments Heap.parseArray : simpl never.

(** A reading [r] with footprint [fp] is local when it depends on the
    footprint only, and bounded when a successful reading stays inside the
    store. *)
Definition localReading {A} (r : Heap.heap -> nat -> option A)
    (fp : Heap.heap -> nat -> gset nat) : Prop :=
  ∀ (h h' : Heap.heap) l,
    (∀ x, x ∈ fp h l -> h' !! x = h !! x) ->
    r h' l = r h l ∧ fp h' l = fp h l.

Definition boundedReading {A} (r : Heap.heap -> nat -> option A)
    (fp : Heap.heap -> nat -> gset nat) : Prop :=
  ∀ (h : Heap.heap) l v, r h l = Some v -> fp h l ⊆ dom h.

(** [f] builds, from a value, new objects that read back as that value. *)
Definition buildsFresh {A} (f : A -> Heap.heap -> nat * Heap.heap)
    (r : Heap.heap -> nat -> option A)
    (fp : Heap.heap -> nat -> gset nat) : Prop :=
  ∀ v (h h' : Heap.heap) l,
    f v h = (l, h') ->
    h ⊆ h' ∧ r h' l = Some v ∧ fp h' l ⊆ dom h' ∖ dom h.

(** An archive-then-reset that started from the store [h], with the task
    list [v] at [tasksRef] and the day logs [logs] in the history, ended in
    [o] with the day log apart from the tasks:
    - the history array is the old one with the new log at its end, and the
      task array reads as the reset tasks [after];
    - the log's tasks read as [v], the tasks before the reset;
    - writing any object over one that existed before the archive, or over
      one the old or the new task list reaches, leaves that reading as it
      is;
    - so does any change of the store that spares what the log reaches. *)
Definition archivedApart (h : Heap.heap) (tasksRef : nat) (v : list Task.t)
    (logs : list nat) (after : list Task.t) (o : option Heap.outcome)
  : Prop :=
  ∃ out log,
    o = Some out
    ∧ Heap.logRef out = Some log
    ∧ Heap.store out !! Heap.newHistoryRef out
      = Some (Heap.OArray (logs ++ [log]))
    ∧ Heap.readTasks (Heap.store out) (Heap.newTasksRef out) = Some after
    ∧ Heap.readLogTasks (Heap.store out) log = Some v
    ∧ (∀ (x : nat) (ob : Heap.obj),
         x ∈ dom h ∪ Heap.fpTasks (Heap.store out) tasksRef
             ∪ Heap.fpTasks (Heap.store out) (Heap.newTasksRef out) ->
         Heap.readLogTasks (<[x := ob]> (Heap.store out)) log = Some v)
    ∧ (∀ h' : Heap.heap,
         (∀ x, x ∈ Heap.fpLogTasks (Heap.store out) log ->
               h' !! x = Heap.store out !! x) ->
         Heap.readLogTasks h' log = Some v).

(** ** Sample data *)

Module Example.
Definition clock (k : nat) : Z := 1718000000000 + Z.of_nat k.

(** A count task with some progress. *)
Definition reading : Task.t :=
  Task.mk "1717900000000" "Read" "General" count 20 "pages" 5
    (Some []) [] 1717900000000 1717900000000.

(** A duration task with one recorded session, half way to its target. *)
Definition deepWork : Task.t :=
  Task.mk "1717900000001" "Deep work" "General" duration 60 "min" 30
    (Some [Session.mk 1717950000000 1717951800000 1800000]) ["focus"]
    1717900000001 1717951800000.

(** A task nobody has touched, stored before sessions existed. *)
Definition untouched : Task.t :=
  Task.mk "1717900000002" "Stretch" "General" count 3 "reps" 0
    None [] 1717900000002 1717900000002.

Definition user : UserProfile.t :=
  UserProfile.mk true (Some 120) [("name", "Ada")].

(** The store of a user who last used the program on 2024-06-09. *)
Definition yesterday : Storage.t :=
  Storage.mk (Some (WellFormed user)) None (Some "Focus")
    (Some (WellFormed [reading; deepWork])) (Some (WellFormed []))
    (Some "2024-06-09") None.

(** The same, with no progress on any task. *)
Definition yesterdayIdle : Storage.t :=
  Storage.mk (Some (WellFormed user)) None (Some "Focus")
    (Some (WellFormed [untouched])) (Some (WellFormed []))
    (Some "2024-06-09") None.

(** The store of a first run, after onboarding and one task. *)
Definition firstRun : Storage.t :=
  Storage.mk (Some (WellFormed user)) None None
    (Some (WellFormed [reading])) None None None.

Definition state (active : option Task.t) : AppState.t :=
  AppState.mk (Some user) DEFAULT_AI_CONFIG "Focus" [reading; deepWork] []
    "2024-06-10" active (RewardState.mk false 0 "") false [].

(** A store of objects holding the two tasks and an empty history. *)
Definition objects : nat * nat * Heap.heap :=
  let '(tasksRef, h) := Heap.parseTasks [reading; deepWork] ∅ in
  let '(historyRef, h) := Heap.alloc (Heap.OArray []) h in
  (tasksRef, historyRef, h).
End Example.

(** ** More of [App.tsx]

    The rest of the logic of the component: the weekly figure, the task
    form, deletion, and the chat round trip.  State cells that the code
    above does not touch are records of their own. *)

(** *** Strings

    A string holds the UTF-8 encoding of the JavaScript string. *)

Definition isByte (n : nat) (c : Ascii.ascii) : bool :=
  Nat.eqb (Ascii.nat_of_ascii c) n.

(** The one-byte white space and line terminators of ECMAScript: TAB, LF,
    VT, FF, CR, SP. *)
Definition isAsciiWhiteSpace (c : Ascii.ascii) : bool :=
  let n := Ascii.nat_of_ascii c in
  ((9 <=? n)%nat && (n <=? 13)%nat) || Nat.eqb n 32.

(** The three-byte ones: U+1680, U+2000-U+200A, U+2028, U+2029, U+202F,
    U+205F, U+3000, U+FEFF. *)
Definition isWhiteSpace3 (a b c : Ascii.ascii) : bool :=
  let x := Ascii.nat_of_ascii a in
  let y := Ascii.nat_of_ascii b in
  let z := Ascii.nat_of_ascii c in
  (Nat.eqb x 225 && Nat.eqb y 154 && Nat.eqb z 128)
  || (Nat.eqb x 226 && Nat.eqb y 128
      && (((128 <=? z)%nat && (z <=? 138)%nat)
          || Nat.eqb z 168 || Nat.eqb z 169 || Nat.eqb z 175))
  || (Nat.eqb x 226 && Nat.eqb y 129 && Nat.eqb z 159)
  || (Nat.eqb x 227 && Nat.eqb y 128 && Nat.eqb z 128)
  || (Nat.eqb x 239 && Nat.eqb y 187 && Nat.eqb z 191).

(** [s.trim () === ''], that is [!s.trim ()]: every character of [s] is
    white space or a line terminator (U+00A0 is the two-byte one). *)
Fixpoint trimIsEmpty (s : string) : bool :=
  match s with
  | EmptyString => true
  | String a r =>
      if isAsciiWhiteSpace a then trimIsEmpty r
      else
        match r with
        | EmptyString => false
        | String b r2 =>
            if isByte 194 a && isByte 160 b then trimIsEmpty r2
            else
              match r2 with
              | EmptyString => false
              | String c r3 =>
                  if isWhiteSpace3 a b c then trimIsEmpty r3 else false
              end
        end
  end.

(** [hay.includes (needle)] *)
Fixpoint String_includes (needle hay : string) : bool :=
  String.prefix needle hay
  || match hay with
     | EmptyString => false
     | String _ r => String_includes needle r
     end.

(** *** [getWeeklyProgress] (lines 194-199) *)

(** [l.slice (-n)] *)
Definition sliceLast {A} (n : nat) (l : list A) : list A :=
  drop (length l - n) l.

Definition getWeeklyProgress (history : list DayLog.t) : Z :=
  if (length history =? 0)%nat then 0
  else
    let recent := sliceLast 7 history in
    let sum :=
      fold_left
        (fun acc curr => acc + DayLog.completionRate (DayLog.stats curr))
        recent 0 in
    Math_round_div sum (Z.of_nat (length recent)).

(** *** [addTask] (lines 240-261) *)

Module TaskForm.
(** The task creation state. *)
Record t := mk {
  newTaskTitle : string;
  newTaskTarget : Z;
  newTaskType : TaskType;
  newTaskUnit : string }.

Definition initial : t := mk "" 1 count "reps".

Definition setNewTaskTitle (v : string) (f : t) : t :=
  mk v (newTaskTarget f) (newTaskType f) (newTaskUnit f).
End TaskForm.

Definition addTask (now : nat -> Z) (form : TaskForm.t) (s : AppState.t)
  : AppState.t * TaskForm.t :=
  if trimIsEmpty (TaskForm.newTaskTitle form) then (s, form)
  else
    let newTask :=
      Task.mk (toString (now 0%nat)) (TaskForm.newTaskTitle form) "General"
        (TaskForm.newTaskType form) (TaskForm.newTaskTarget form)
        (match TaskForm.newTaskType form with
         | duration => "min"
         | count => TaskForm.newTaskUnit form
         end)
        0 (Some []) [] (now 1%nat) (now 2%nat) in
    let p := AppState.setTasks (AppState.tasks s ++ [newTask]) s in
    let form := TaskForm.setNewTaskTitle "" form in
    let p :=
      match AppState.userProfile s with
      | Some u =>
          AppState.setUserProfile
            (Some (UserProfile.withXp (UserProfile.xpOrZero u + 10) u)) p
      | None => p
      end in
    (p, form).

(** *** [deleteTask] (lines 276-282)

    [deleteTask] opens the confirmation dialog and changes nothing else;
    this is the [onConfirm] it installs,
    [() => setTasks (prev => prev.filter (t => t.id !== id))], run on the
    pending state. *)

Definition deleteTask_onConfirm (id : string) (p : AppState.t) : AppState.t :=
  AppState.setTasks
    (List.filter (fun x => negb (String.eqb (Task.id x) id))
       (AppState.tasks p)) p.

(** *** [vite.config.ts]: the key injected at build time *)

(** [JSON.stringify (env.API_KEY || "")], substituted for
    [process.env.API_KEY]: the expression evaluates to that string. *)
Definition injectedApiKey (envApiKey : option string) : string :=
  if truthy envApiKey then default "" envApiKey else "".

(** *** [handleSendMessage] (lines 361-420) *)

Module ChatForm.
(** [inputText] and [isTyping]. *)
Record t := mk { inputText : string; isTyping : bool }.
End ChatForm.

(** What is thrown and caught, as far as the handler looks at it:
    [error.message], missing when [None], and [error.toString ()]. *)
Record JsError := mkJsError {
  errorMessage : option string;
  errorToString : string }.

(** [new Error (m)] *)
Definition newError (m : string) : JsError :=
  mkJsError (Some m) ("Error: " +:+ m).

(** How the part of the [try] block the sources do not show ends:
    [constructSystemInstruction], the client and [generateContent] either
    yield a response, whose [text] may be missing, or throw. *)
Inductive GenAiOutcome :=
| Responded (text : option string)
| Threw (e : JsError).

(** The handler up to its [try]: [None] when it returns at once. *)
Definition handleSendMessage_begin (now : nat -> Z) (form : ChatForm.t)
    (s : AppState.t) : option (AppState.t * ChatForm.t) :=
  if trimIsEmpty (ChatForm.inputText form)
     || negb (bool_decide (is_Some (AppState.userProfile s)))
  then None
  else
    let newMsg :=
      ChatMessage.mk (toString (now 0%nat)) "user" (ChatForm.inputText form)
        (now 1%nat) in
    Some (AppState.pushMessage newMsg s, ChatForm.mk "" true).

(** The [catch] block. *)
Definition offlineReply
    (runEvaluator :
       list Task.t -> list DayLog.t -> option UserProfile.t -> Metrics.t)
    (now : nat -> Z) (s : AppState.t) (error : JsError) : ChatMessage.t :=
  let metrics :=
    runEvaluator (AppState.tasks s) (AppState.history s)
      (AppState.userProfile s) in
  let errorMsg := "Connection failed" in
  let errorMsg :=
    if truthy (errorMessage error)
    then default "" (errorMessage error) else errorMsg in
  let errorMsg :=
    if String_includes "API Key" (errorToString error)
    then "Check API Key configuration" else errorMsg in
  ChatMessage.mk (toString (now 2%nat)) "model"
    ("Offline Mode (" +:+ errorMsg +:+ "). Evaluator says: "
     +:+ Metrics.summary metrics)
    (now 3%nat).

(** The [try], [catch] and [finally] blocks.  [s] is the state the handler
    closed over, [p] the pending state when the reply is set; the result
    carries the text handed to [speakText], if any.  [speakText] is taken
    not to throw. *)
Definition handleSendMessage_settle
    (runEvaluator :
       list Task.t -> list DayLog.t -> option UserProfile.t -> Metrics.t)
    (apiKey : string) (now : nat -> Z) (outcome : GenAiOutcome)
    (s p : AppState.t) (form : ChatForm.t)
  : AppState.t * ChatForm.t * option string :=
  let result :=
    if negb (truthy (Some apiKey)) || trimIsEmpty apiKey
    then Threw (newError "API Key is missing in environment variables.")
    else outcome in
  let '(p, spoken) :=
    match result with
    | Responded response =>
        let text :=
          if truthy response then default "" response
          else "I'm listening, but I can't generate a response right now." in
        let botMsg :=
          ChatMessage.mk (toString (now 2%nat + 1)) "model" text
            (now 3%nat) in
        (AppState.pushMessage botMsg p,
         if AppState.isAutoSpeechEnabled s then Some text else None)
    | Threw error =>
        (AppState.pushMessage (offlineReply runEvaluator now s error) p,
         None)
    end in
  (p, ChatForm.mk (ChatForm.inputText form) false, spoken).

(** The whole handler when nothing else runs while it waits. *)
Definition handleSendMessage
    (runEvaluator :
       list Task.t -> list DayLog.t -> option UserProfile.t -> Metrics.t)
    (apiKey : string) (now : nat -> Z) (outcome : GenAiOutcome)
    (form : ChatForm.t) (s : AppState.t)
  : AppState.t * ChatForm.t * option string :=
  match handleSendMessage_begin now form s with
  | None => (s, form, None)
  | Some (p, form') =>
      handleSendMessage_settle runEvaluator apiKey now outcome s p form'
  end.

(** *** What the handlers do to the profile *)

(** From [before] to [after] the profile, if there is one, kept everything
    but its xp, which did not shrink; no profile appeared or vanished. *)
Definition profileGrew (before after : option UserProfile.t) : Prop :=
  match before, after with
  | None, None => True
  | Some u, Some u' =>
      UserProfile.xpOrZero u <= UserProfile.xpOrZero u'
      ∧ UserProfile.onboarded u' = UserProfile.onboarded u
      ∧ UserProfile.presentation u' = UserProfile.presentation u
  | _, _ => False
  end.

(** *** What a store holds besides tasks and history *)

Definition storedAiConfig (st : Storage.t) : AIConfig.t :=
  match Storage.elevate_ai st with
  | Some (WellFormed a) => a
  | _ => DEFAULT_AI_CONFIG
  end.

Definition storedTheme (st : Storage.t) : string :=
  if truthy (Storage.elevate_theme st)
  then default "" (Storage.elevate_theme st) else "Focus".

Definition storedAutoSpeech (st : Storage.t) : bool :=
  match Storage.elevate_auto_speech st with
  | Some (WellFormed b) => b
  | _ => false
  end.

(** The message the rollover emits. *)
Definition newDayText (savedLastDate : string) : string :=
  "New day detected. Previous data from " +:+ savedLastDate
  +:+ " has been archived.".

(** ** More sample data *)

Module Sample.
Definition log (date : string) (rate : Z) : DayLog.t :=
  DayLog.mk date [] (DayLog.mkStats rate 0).

(** Nine archived days; the last seven have rates between 40 and 100. *)
Definition nineDays : list DayLog.t :=
  [log "2024-06-01" 0; log "2024-06-02" 10; log "2024-06-03" 40;
   log "2024-06-04" 50; log "2024-06-05" 75; log "2024-06-06" 100;
   log "2024-06-07" 80; log "2024-06-08" 60; log "2024-06-09" 90].

Definition form : TaskForm.t := TaskForm.mk "Meditate" 15 duration "reps".

Definition chat : ChatForm.t := ChatForm.mk "How am I doing?" false.

(** A store whose history entry does not parse. *)
Definition brokenHistory : Storage.t :=
  Storage.mk (Some (WellFormed Example.user)) None (Some "Focus")
    (Some (WellFormed [Example.reading])) (Some Malformed)
    (Some "2024-06-09") None.

(** A store whose task entry does not parse. *)
Definition brokenTasks : Storage.t :=
  Storage.mk (Some (WellFormed Example.user)) None (Some "Focus")
    (Some Malformed) (Some (WellFormed [])) (Some "2024-06-09") None.
End Sample.

(** * Properties *)

(** ** Reset and migration *)

Lemma reset_isResetOf stamp x : isResetOf x (Task.reset stamp x).
Proof. repeat split. Qed.

Lemma resetTasks_lookup now k ts i :
  resetTasks now k ts !! i = Task.reset (now (k + i)%nat) <$> ts !! i.
Proof. unfold resetTasks. now rewrite list_lookup_imap. Qed.

Lemma resetTasks_length now k ts : length (resetTasks now k ts) = length ts.
Proof. unfold resetTasks. apply length_imap. Qed.

Lemma resetTasks_Forall2 now k ts :
  Forall2 isResetOf ts (resetTasks now k ts).
Proof.
  apply Forall2_same_length_lookup_2.
  - symmetry. apply resetTasks_length.
  - intros i x y Hx Hy. rewrite resetTasks_lookup, Hx in Hy.
    injection Hy as <-. apply reset_isResetOf.
Qed.

Lemma migrate_reset stamp x :
  Task.migrate (Task.reset stamp x) = Task.reset stamp x.
Proof. reflexivity. Qed.

Lemma migrate_idem x : Task.migrate (Task.migrate x) = Task.migrate x.
Proof. reflexivity. Qed.

Lemma map_migrate_resetTasks now k ts :
  map Task.migrate (resetTasks now k ts) = resetTasks now k ts.
Proof.
  apply list_eq. intros i. rewrite list_lookup_fmap, resetTasks_lookup.
  destruct (ts !! i); reflexivity.
Qed.

Lemma reset_migrate stamp x :
  Task.reset stamp (Task.migrate x) = Task.reset stamp x.
Proof. reflexivity. Qed.

Lemma resetTasks_migrate now k ts :
  resetTasks now k (map Task.migrate ts) = resetTasks now k ts.
Proof.
  apply list_eq. intros i.
  rewrite !resetTasks_lookup, list_lookup_fmap.
  destruct (ts !! i); reflexivity.
Qed.

Lemma hasProgress_migrate ts :
  hasProgress (map Task.migrate ts) = hasProgress ts.
Proof.
  unfold hasProgress. induction ts as [|x r IH]; simpl; [reflexivity|].
  now rewrite IH.
Qed.

Lemma hasProgress_false ts :
  hasProgress ts = false <-> Forall (fun x => Task.current x <= 0) ts.
Proof.
  unfold hasProgress. induction ts as [|x r IH]; simpl.
  - split; [constructor | reflexivity].
  - rewrite orb_false_iff, IH, Z.ltb_ge, Forall_cons. reflexivity.
Qed.

(** ** The day-end bonus *)

Lemma bonusXpOf_cases r :
  (80 <= r ∧ bonusXpOf r = 100)
  ∨ (50 <= r < 80 ∧ bonusXpOf r = 50)
  ∨ (r < 50 ∧ bonusXpOf r = 0).
Proof.
  unfold bonusXpOf.
  destruct (Z.leb_spec 80 r); [left; split; [lia | reflexivity]|].
  destruct (Z.leb_spec 50 r); [right; left | right; right];
    (split; [lia | reflexivity]).
Qed.

(** ** Awards *)

Lemma xpAwarded_intro (n : Z) (o : option UserProfile.t) :
  xpAwarded n o
    ((fun u => UserProfile.withXp (UserProfile.xpOrZero u + n) u) <$> o).
Proof.
  destruct o as [u|]; simpl; [|reflexivity].
  eexists. split; [reflexivity|].
  unfold UserProfile.withXp, UserProfile.xpOrZero. simpl.
  destruct (UserProfile.xp u); repeat split.
Qed.

(** ** Manual end of day *)

Section EndDay.
Variable runEvaluator :
  list Task.t -> list DayLog.t -> option UserProfile.t -> Metrics.t.

Lemma performEndDay_fields todayStr now quote s st :
  let m := runEvaluator (AppState.tasks s) (AppState.history s)
             (AppState.userProfile s) in
  let r := performEndDay runEvaluator todayStr now quote s st in
  AppState.history r.1
    = AppState.history s
      ++ [DayLog.mk todayStr (AppState.tasks s)
            (DayLog.mkStats (Metrics.completionRate m) 0)]
  ∧ AppState.tasks r.1 = resetTasks now 0 (AppState.tasks s)
  ∧ AppState.userProfile r.1
    = (fun u => UserProfile.withXp
                  (UserProfile.xpOrZero u
                   + bonusXpOf (Metrics.completionRate m)) u)
      <$> AppState.userProfile s
  ∧ Storage.elevate_history r.2 = Some (WellFormed (AppState.history r.1))
  ∧ Storage.elevate_tasks r.2 = Some (WellFormed (AppState.tasks r.1)).
Proof.
  intros m r. subst m r. unfold performEndDay.
  destruct (AppState.userProfile s) as [u|] eqn:Hu;
    destruct (0 <? Metrics.streak _); simpl; rewrite ?Hu; repeat split.
Qed.

End EndDay.

(** C1.  Whatever the task list (in particular when no task has any
    progress) and whatever the history, [performEndDay] appends exactly one
    day log to the history, holding the tasks as they were, resets every
    task, and adds to the profile's xp a bonus that is 100 when the
    completion rate the evaluator computed is at least 80, 50 when it is at
    least 50, and 0 otherwise: the xp field of the new profile is the old
    xp, 0 if missing, plus the bonus, and its other fields are kept. *)
Theorem performEndDay_archives_resets_awards
    (runEvaluator :
       list Task.t -> list DayLog.t -> option UserProfile.t -> Metrics.t)
    (todayStr : string) (now : nat -> Z) (quote : string)
    (s : AppState.t) (st : Storage.t) :
  let rate :=
    Metrics.completionRate
      (runEvaluator (AppState.tasks s) (AppState.history s)
         (AppState.userProfile s)) in
  let s' := (performEndDay runEvaluator todayStr now quote s st).1 in
  (∃ log, AppState.history s' = AppState.history s ++ [log]
          ∧ DayLog.date log = todayStr
          ∧ DayLog.tasks log = AppState.tasks s
          ∧ DayLog.completionRate (DayLog.stats log) = rate)
  ∧ length (AppState.history s') = S (length (AppState.history s))
  ∧ Forall2 isResetOf (AppState.tasks s) (AppState.tasks s')
  ∧ (∃ bonus,
        ((80 <= rate ∧ bonus = 100)
         ∨ (50 <= rate < 80 ∧ bonus = 50)
         ∨ (rate < 50 ∧ bonus = 0))
        ∧ match AppState.userProfile s with
          | Some u =>
              ∃ u',
                AppState.userProfile s' = Some u'
                ∧ UserProfile.xp u'
                  = Some (default 0 (UserProfile.xp u) + bonus)
                ∧ UserProfile.onboarded u' = UserProfile.onboarded u
                ∧ UserProfile.presentation u' = UserProfile.presentation u
          | None => AppState.userProfile s' = None
          end).
Proof.
  intros rate s'. subst rate s'.
  destruct (performEndDay_fields runEvaluator todayStr now quote s st)
    as (Hh & Ht & Hp & _ & _).
  split; [|split; [|split]].
  - eexists. split; [exact Hh | repeat split].
  - rewrite Hh, length_app. simpl. lia.
  - rewrite Ht. apply resetTasks_Forall2.
  - eexists. split; [apply bonusXpOf_cases|].
    cbv zeta in Hp. rewrite Hp. apply xpAwarded_intro.
Qed.

(** ** Loading the store *)

Lemma loadStored_parses now st :
  storageParses st = true ->
  ∃ p k,
    loadStored now st
    = Some (map Task.migrate (storedTasks st), storedHistory st, p, k)
    ∧ AppState.tasks p = map Task.migrate (storedTasks st)
    ∧ AppState.history p = storedHistory st
    ∧ AppState.lastActiveDate p = loadedDate st
    ∧ AppState.userProfile p = storedProfile st.
Proof.
  destruct st as [u a th ts h d au].
  unfold storageParses, loadStored, storedTasks, storedHistory, loadedDate,
    storedProfile; simpl.
  intros Hp.
  destruct u as [[|u]|]; try discriminate Hp;
    destruct a as [[|a]|]; try discriminate Hp;
    destruct au as [[|au]|]; try discriminate Hp;
    destruct h as [[|h]|]; try discriminate Hp;
    destruct ts as [[|ts]|]; destruct (truthy th); destruct (truthy d);
    simpl; do 2 eexists; repeat split.
Qed.

Lemma loadStored_Some now st cT cH p k :
  loadStored now st = Some (cT, cH, p, k) ->
  storageParses st = true.
Proof.
  destruct st as [u a th ts h d au].
  unfold storageParses, loadStored, mbind, option_bind; simpl.
  destruct u as [[|u]|]; simpl; try discriminate;
    destruct a as [[|a]|]; simpl; try discriminate;
    destruct au as [[|au]|]; simpl; try discriminate;
    destruct ts as [[|ts]|]; simpl;
    destruct h as [[|h]|]; simpl; try discriminate; reflexivity.
Qed.

Lemma startupEffect_Some_parses R today now st r :
  startupEffect R today now st = Some r -> storageParses st = true.
Proof.
  unfold startupEffect. intros H.
  destruct (loadStored now st) as [[[[cT cH] p] k]|] eqn:E; [|discriminate].
  eauto using loadStored_Some.
Qed.

Lemma truthy_Some d : truthy (Some d) = true <-> d ≠ "".
Proof.
  simpl. destruct (String.eqb_spec d ""); simpl; split; congruence.
Qed.

(** ** Automatic rollover *)

Section Rollover.
Variable runEvaluator :
  list Task.t -> list DayLog.t -> option UserProfile.t -> Metrics.t.

(** The three branches of the rollover logic. *)

Lemma automaticRollover_newDay today now k cT cH p st d :
  Storage.elevate_last_date st = Some d -> d ≠ "" -> d ≠ today ->
  let r := automaticRollover runEvaluator today now k cT cH p st in
  let archived :=
    cH ++ [DayLog.mk d cT
             (DayLog.mkStats
                (Metrics.completionRate (runEvaluator cT cH None)) 0)] in
  AppState.tasks r.1 = resetTasks now k cT
  ∧ Storage.elevate_tasks r.2 = Some (WellFormed (resetTasks now k cT))
  ∧ AppState.lastActiveDate r.1 = today
  ∧ Storage.elevate_last_date r.2 = Some today
  ∧ AppState.userProfile r.1 = AppState.userProfile p
  ∧ Storage.elevate_user r.2 = Storage.elevate_user st
  ∧ Storage.elevate_ai r.2 = Storage.elevate_ai st
  ∧ Storage.elevate_auto_speech r.2 = Storage.elevate_auto_speech st
  ∧ (if hasProgress cT
     then AppState.history r.1 = archived
          ∧ Storage.elevate_history r.2 = Some (WellFormed archived)
     else AppState.history r.1 = AppState.history p
          ∧ Storage.elevate_history r.2 = Storage.elevate_history st).
Proof.
  intros Hd Hne Hday r archived. subst r archived.
  unfold automaticRollover. rewrite Hd.
  assert (Ht : truthy (Some d) = true) by now apply truthy_Some.
  rewrite Ht. simpl default.
  destruct (String.eqb_spec d today) as [|_]; [contradiction|].
  simpl negb. simpl andb. cbv iota.
  destruct (hasProgress cT); simpl; repeat split.
Qed.

Lemma automaticRollover_firstRun today now k cT cH p st :
  truthy (Storage.elevate_last_date st) = false ->
  automaticRollover runEvaluator today now k cT cH p st
  = (AppState.setLastActiveDate today p, Storage.setLastDate today st).
Proof.
  intros Hf. unfold automaticRollover. rewrite Hf. reflexivity.
Qed.

Lemma automaticRollover_sameDay today now k cT cH p st :
  truthy (Storage.elevate_last_date st) = true ->
  Storage.elevate_last_date st = Some today ->
  automaticRollover runEvaluator today now k cT cH p st = (p, st).
Proof.
  intros Ht Hd. unfold automaticRollover. rewrite Ht, Hd. simpl default.
  rewrite String.eqb_refl. reflexivity.
Qed.

End Rollover.

Section Startup.
Variable runEvaluator :
  list Task.t -> list DayLog.t -> option UserProfile.t -> Metrics.t.

(** With a store that parses, the start-up effect runs to its end: it is
    the rollover logic applied to what was loaded. *)
Lemma startupEffect_runs today now st :
  storageParses st = true ->
  ∃ p k,
    startupEffect runEvaluator today now st
    = Some (automaticRollover runEvaluator today now k
              (map Task.migrate (storedTasks st)) (storedHistory st) p st)
    ∧ AppState.tasks p = map Task.migrate (storedTasks st)
    ∧ AppState.history p = storedHistory st
    ∧ AppState.lastActiveDate p = loadedDate st
    ∧ AppState.userProfile p = storedProfile st.
Proof.
  intros Hp.
  destruct (loadStored_parses now st Hp) as (p & k & Hl & Hrest).
  exists p, k. split; [|exact Hrest].
  unfold startupEffect. rewrite Hl. reflexivity.
Qed.

(** The start-up effect on a store dated another day. *)
Lemma startupEffect_newDay today now st d :
  storageParses st = true ->
  Storage.elevate_last_date st = Some d -> d ≠ "" -> d ≠ today ->
  ∃ s' st' k,
    startupEffect runEvaluator today now st = Some (s', st')
    ∧ AppState.tasks s' = resetTasks now k (storedTasks st)
    ∧ Storage.elevate_tasks st' = Some (WellFormed (AppState.tasks s'))
    ∧ AppState.lastActiveDate s' = today
    ∧ Storage.elevate_last_date st' = Some today
    ∧ AppState.userProfile s' = storedProfile st
    ∧ Storage.elevate_user st' = Storage.elevate_user st
    ∧ (if hasProgress (storedTasks st)
       then ∃ log, AppState.history s' = storedHistory st ++ [log]
                   ∧ DayLog.date log = d
                   ∧ DayLog.tasks log = map Task.migrate (storedTasks st)
                   ∧ Storage.elevate_history st'
                     = Some (WellFormed (AppState.history s'))
       else AppState.history s' = storedHistory st
            ∧ Storage.elevate_history st' = Storage.elevate_history st).
Proof.
  intros Hp Hd Hne Hday.
  destruct (startupEffect_runs today now st Hp)
    as (p & k & Hrun & Ht & Hh & _ & Hu).
  pose proof (automaticRollover_newDay runEvaluator today now k
                (map Task.migrate (storedTasks st)) (storedHistory st) p st
                d Hd Hne Hday) as H.
  cbv zeta in H.
  destruct (automaticRollover _ _ _ _ _ _ _ _) as [s' st'] eqn:E.
  simpl in H.
  destruct H as (Hts & Hkey & Hlad & Hlast & Hprof & Huser & _ & _ & Hhist).
  exists s', st', k. split; [exact Hrun|].
  rewrite resetTasks_migrate in Hts, Hkey.
  rewrite hasProgress_migrate in Hhist.
  repeat split; try congruence.
  destruct (hasProgress (storedTasks st)); destruct Hhist as [E1 E2].
  - eexists. split; [exact E1|]. repeat split. congruence.
  - split; congruence.
Qed.

End Startup.

(** C2.  When a last-active date is stored and differs from today's, the
    start-up effect runs to its end; if no stored task has [current > 0]
    it leaves the history as it was, in the state and in the store; in
    either case every task is reset and the last-active date becomes
    today's, in the state and in the store. *)
Theorem automatic_rollover_resets_and_redates
    (runEvaluator :
       list Task.t -> list DayLog.t -> option UserProfile.t -> Metrics.t)
    (todayStr : string) (now : nat -> Z) (st : Storage.t) (d : string) :
  storageParses st = true ->
  Storage.elevate_last_date st = Some d -> d ≠ "" -> d ≠ todayStr ->
  ∃ s' st',
    startupEffect runEvaluator todayStr now st = Some (s', st')
    ∧ (hasProgress (storedTasks st) = false ->
       AppState.history s' = storedHistory st
       ∧ Storage.elevate_history st' = Storage.elevate_history st)
    ∧ Forall2 isResetOf (storedTasks st) (AppState.tasks s')
    ∧ Storage.elevate_tasks st' = Some (WellFormed (AppState.tasks s'))
    ∧ AppState.lastActiveDate s' = todayStr
    ∧ Storage.elevate_last_date st' = Some todayStr.
Proof.
  intros Hp Hd Hne Hday.
  destruct (startupEffect_runs runEvaluator todayStr now st Hp)
    as (p & k & Hrun & Ht & Hh & _ & _).
  pose proof (automaticRollover_newDay runEvaluator todayStr now k
                (map Task.migrate (storedTasks st)) (storedHistory st) p st d
                Hd Hne Hday) as H.
  cbv zeta in H.
  destruct (automaticRollover _ _ _ _ _ _ _ _) as [s' st'] eqn:E.
  simpl in H. destruct H as (Hts & Hkey & Hlad & Hlast & _ & _ & _ & _ & Hhist).
  exists s', st'. split; [exact Hrun|].
  split; [|split; [|split; [|split]]].
  - intros Hno. rewrite hasProgress_migrate, Hno in Hhist.
    destruct Hhist as [H1 H2]. rewrite H1, Hh. split; [reflexivity | exact H2].
  - rewrite Hts, resetTasks_migrate. apply resetTasks_Forall2.
  - rewrite Hkey, Hts. reflexivity.
  - exact Hlad.
  - exact Hlast.
Qed.

(** C9.  On a first run, the store holding no last-active date, the
    start-up effect sets the last-active date to today's, in the state and
    in the store, and neither archives nor resets: the stored task list and
    history are untouched and the state holds them as loaded, every task
    with the progress and the sessions it had. *)
Theorem first_run_initialises_date_only
    (runEvaluator :
       list Task.t -> list DayLog.t -> option UserProfile.t -> Metrics.t)
    (todayStr : string) (now : nat -> Z) (st : Storage.t) :
  storageParses st = true ->
  truthy (Storage.elevate_last_date st) = false ->
  ∃ s' st',
    startupEffect runEvaluator todayStr now st = Some (s', st')
    ∧ AppState.lastActiveDate s' = todayStr
    ∧ Storage.elevate_last_date st' = Some todayStr
    ∧ Storage.elevate_tasks st' = Storage.elevate_tasks st
    ∧ Storage.elevate_history st' = Storage.elevate_history st
    ∧ AppState.history s' = storedHistory st
    ∧ AppState.tasks s' = map Task.migrate (storedTasks st)
    ∧ Forall2 (fun old new =>
                 Task.current new = Task.current old
                 ∧ Task.sessions new = Some (Task.sessionsOrEmpty old)
                 ∧ Task.updatedAt new = Task.updatedAt old)
        (storedTasks st) (AppState.tasks s').
Proof.
  intros Hp Hf.
  destruct (startupEffect_runs runEvaluator todayStr now st Hp)
    as (p & k & Hrun & Ht & Hh & _ & _).
  rewrite automaticRollover_firstRun in Hrun by exact Hf.
  do 2 eexists. split; [exact Hrun|]. simpl.
  repeat split; try assumption.
  rewrite Ht. apply Forall2_fmap_r, Forall_Forall2_diag, Forall_forall.
  intros x _. repeat split.
Qed.

(** ** Running the start-up check again *)

Lemma setLastDate_same v st :
  Storage.elevate_last_date st = Some v -> Storage.setLastDate v st = st.
Proof. destruct st; simpl. intros ->. reflexivity. Qed.

Section Again.
Variable runEvaluator :
  list Task.t -> list DayLog.t -> option UserProfile.t -> Metrics.t.

(** A start-up on a store that is already dated today loads it and
    changes nothing. *)
Lemma startupEffect_dated_today today now st :
  storageParses st = true ->
  Storage.elevate_last_date st = Some today ->
  ∃ s', startupEffect runEvaluator today now st = Some (s', st)
        ∧ AppState.tasks s' = map Task.migrate (storedTasks st)
        ∧ AppState.history s' = storedHistory st
        ∧ AppState.lastActiveDate s' = today
        ∧ AppState.userProfile s' = storedProfile st.
Proof.
  intros Hp Hd.
  destruct (startupEffect_runs runEvaluator today now st Hp)
    as (p & k & Hrun & Ht & Hh & Hl & Hu).
  destruct (truthy (Storage.elevate_last_date st)) eqn:Tr.
  - rewrite automaticRollover_sameDay in Hrun by assumption.
    exists p. repeat split; try assumption.
    rewrite Hl. unfold loadedDate. rewrite Tr, Hd. reflexivity.
  - rewrite automaticRollover_firstRun in Hrun by assumption.
    rewrite (setLastDate_same _ _ Hd) in Hrun.
    eexists. split; [exact Hrun|]. simpl. repeat split; assumption.
Qed.

End Again.

(** C3.  Once the start-up effect has run for some "today", running it
    again for the same "today" on the store it left finds nothing to do:
    the store is left as it is, and the state it builds has the task list,
    the history and the last-active date of the state the first run
    built. *)
Theorem automatic_rollover_idempotent
    (runEvaluator :
       list Task.t -> list DayLog.t -> option UserProfile.t -> Metrics.t)
    (todayStr : string) (now1 now2 : nat -> Z)
    (st st1 : Storage.t) (s1 : AppState.t) :
  startupEffect runEvaluator todayStr now1 st = Some (s1, st1) ->
  ∃ s2,
    startupEffect runEvaluator todayStr now2 st1 = Some (s2, st1)
    ∧ AppState.tasks s2 = AppState.tasks s1
    ∧ AppState.history s2 = AppState.history s1
    ∧ AppState.lastActiveDate s2 = AppState.lastActiveDate s1.
Proof.
  intros H1.
  pose proof (startupEffect_Some_parses _ _ _ _ _ H1) as Hp.
  destruct (startupEffect_runs runEvaluator todayStr now1 st Hp)
    as (p & k & Hrun & Ht & Hh & Hl & _).
  rewrite H1 in Hrun. injection Hrun as Hrun.
  assert (Hgoal :
    storageParses st1 = true
    ∧ Storage.elevate_last_date st1 = Some todayStr
    ∧ map Task.migrate (storedTasks st1) = AppState.tasks s1
    ∧ storedHistory st1 = AppState.history s1
    ∧ AppState.lastActiveDate s1 = todayStr).
  { destruct (truthy (Storage.elevate_last_date st)) eqn:Tr.
    - destruct (Storage.elevate_last_date st) as [d|] eqn:Hd;
        [|discriminate Tr].
      destruct (String.eqb_spec d todayStr) as [->|Hday].
      + (* same day *)
        rewrite automaticRollover_sameDay in Hrun
          by (rewrite ?Hd; try assumption; reflexivity).
        unfold loadedDate in Hl. rewrite Hd, Tr in Hl. simpl in Hl.
        injection Hrun as ? ?; subst s1 st1.
        repeat split; congruence.
      + (* a new day *)
        apply truthy_Some in Tr.
        pose proof (automaticRollover_newDay runEvaluator todayStr now1 k
                      (map Task.migrate (storedTasks st)) (storedHistory st)
                      p st d Hd Tr Hday) as H.
        cbv zeta in H. rewrite <- Hrun in H. simpl in H.
        destruct H as (Hts & Hkey & Hlad & Hlast & _ & Hu & Ha & Hau & Hhist).
        assert (Hhk : storedHistory st1 = AppState.history s1
                      ∧ parsesOrAbsent (Storage.elevate_history st1) = true).
        { unfold storedHistory.
          destruct (hasProgress _); destruct Hhist as [E1 E2]; rewrite E2.
          - split; [now rewrite E1 | reflexivity].
          - rewrite E1, Hh. split; [reflexivity|].
            unfold storageParses in Hp.
            apply andb_true_iff in Hp. apply Hp. }
        destruct Hhk as [Hhv Hhp].
        split; [|split; [|split; [|split]]]; try assumption.
        * unfold storageParses in *. rewrite Hu, Ha, Hau, Hhp.
          apply andb_true_iff in Hp as [Hp _]. rewrite Hp. reflexivity.
        * unfold storedTasks. rewrite Hkey, Hts.
          apply map_migrate_resetTasks.
    - (* first run *)
      rewrite automaticRollover_firstRun in Hrun by assumption.
      injection Hrun as ? ?; subst s1 st1. simpl.
      repeat split; try congruence.
      + destruct st; exact Hp.
      + rewrite Ht. destruct st; reflexivity.
      + rewrite Hh. destruct st; reflexivity. }
  destruct Hgoal as (Hp1 & Hd1 & Ht1 & Hh1 & Hl1).
  destruct (startupEffect_dated_today runEvaluator todayStr now2 st1 Hp1 Hd1)
    as (s2 & Hrun2 & Ht2 & Hh2 & Hl2 & _).
  exists s2. split; [exact Hrun2|]. repeat split; congruence.
Qed.

(** C6 as the code has it.  When the start-up effect finds a stored date
    other than today's and a task with progress, it archives the outgoing
    day and leaves the user profile alone: the state holds the stored
    profile as loaded, with the xp it had, and the stored profile is not
    rewritten. *)
Theorem automatic_rollover_keeps_profile
    (runEvaluator :
       list Task.t -> list DayLog.t -> option UserProfile.t -> Metrics.t)
    (todayStr : string) (now : nat -> Z) (st : Storage.t) (d : string) :
  storageParses st = true ->
  Storage.elevate_last_date st = Some d -> d ≠ "" -> d ≠ todayStr ->
  hasProgress (storedTasks st) = true ->
  ∃ s' st',
    startupEffect runEvaluator todayStr now st = Some (s', st')
    ∧ length (AppState.history s') = S (length (storedHistory st))
    ∧ AppState.userProfile s' = storedProfile st
    ∧ Storage.elevate_user st' = Storage.elevate_user st.
Proof.
  intros Hp Hd Hne Hday Hprog.
  destruct (startupEffect_newDay runEvaluator todayStr now st d Hp Hd Hne Hday)
    as (s' & st' & k & Hrun & _ & _ & _ & _ & Hprof & Huser & Hhist).
  rewrite Hprog in Hhist. destruct Hhist as (log & Hhist & _).
  exists s', st'. split; [exact Hrun|]. repeat split; try assumption.
  rewrite Hhist, length_app. simpl. lia.
Qed.

(** C7.  Archive-then-reset on either path: the history grows by exactly
    one entry, every task has [current = 0] and no sessions afterwards, and
    keeps its id, title, target and unit.  [performEndDay] always archives;
    the start-up effect archives when the stored date is another day's and
    some task has progress. *)
Theorem archive_then_reset_frame
    (runEvaluator :
       list Task.t -> list DayLog.t -> option UserProfile.t -> Metrics.t)
    (todayStr : string) (now : nat -> Z) :
  (∀ (quote : string) (s : AppState.t) (st : Storage.t),
     let s' := (performEndDay runEvaluator todayStr now quote s st).1 in
     length (AppState.history s') = S (length (AppState.history s))
     ∧ Forall2 isResetOf (AppState.tasks s) (AppState.tasks s'))
  ∧ (∀ (st : Storage.t) (d : string),
       storageParses st = true ->
       Storage.elevate_last_date st = Some d -> d ≠ "" -> d ≠ todayStr ->
       hasProgress (storedTasks st) = true ->
       ∃ s' st',
         startupEffect runEvaluator todayStr now st = Some (s', st')
         ∧ length (AppState.history s') = S (length (storedHistory st))
         ∧ Forall2 isResetOf (storedTasks st) (AppState.tasks s')).
Proof.
  split.
  - intros quote s st.
    destruct (performEndDay_fields runEvaluator todayStr now quote s st)
      as (Hh & Ht & _).
    cbv zeta. rewrite Hh, Ht, length_app. simpl.
    split; [lia | apply resetTasks_Forall2].
  - intros st d Hp Hd Hne Hday Hprog.
    destruct (startupEffect_newDay runEvaluator todayStr now st d
                Hp Hd Hne Hday)
      as (s' & st' & k & Hrun & Ht & _ & _ & _ & _ & _ & Hhist).
    rewrite Hprog in Hhist. destruct Hhist as (log & Hhist & _).
    exists s', st'. split; [exact Hrun|]. split.
    + rewrite Hhist, length_app. simpl. lia.
    + rewrite Ht. apply resetTasks_Forall2.
Qed.

(** ** Persistence *)

(** C10.  Every run of the persistence effect stores today's date under
    the last-active-date key, whatever the state that triggered it and
    whatever date was stored before, without any rollover: tasks and
    history are stored as the state has them.  The rollover logic, run for
    the same "today" on the store so written, finds the date current and
    changes neither the store nor the tasks and history it is given. *)
Theorem persistEffect_reanchors_date
    (runEvaluator :
       list Task.t -> list DayLog.t -> option UserProfile.t -> Metrics.t)
    (todayStr : string) (s : AppState.t) (st : Storage.t) :
  let st' := persistEffect todayStr s st in
  Storage.elevate_last_date st' = Some todayStr
  ∧ Storage.elevate_tasks st' = Some (WellFormed (AppState.tasks s))
  ∧ Storage.elevate_history st' = Some (WellFormed (AppState.history s))
  ∧ ∀ now k cT cH p,
      let r := automaticRollover runEvaluator todayStr now k cT cH p st' in
      r.2 = st'
      ∧ AppState.tasks r.1 = AppState.tasks p
      ∧ AppState.history r.1 = AppState.history p.
Proof.
  intros st'.
  assert (Hd : Storage.elevate_last_date st' = Some todayStr).
  { subst st'. unfold persistEffect.
    destruct (AppState.userProfile s); reflexivity. }
  split; [exact Hd|].
  split; [subst st'; unfold persistEffect;
          destruct (AppState.userProfile s); reflexivity|].
  split; [subst st'; unfold persistEffect;
          destruct (AppState.userProfile s); reflexivity|].
  intros now k cT cH p r. subst r.
  destruct (truthy (Storage.elevate_last_date st')) eqn:Tr.
  - rewrite automaticRollover_sameDay by assumption. repeat split.
  - rewrite automaticRollover_firstRun by assumption.
    rewrite (setLastDate_same _ _ Hd). repeat split.
Qed.

(** ** Focus sessions *)

Lemma Math_round_div_nearest a b :
  0 < b ->
  2 * b * Math_round_div a b - b <= 2 * a < 2 * b * Math_round_div a b + b.
Proof.
  intros Hb. unfold Math_round_div.
  pose proof (Z.div_mod (2 * a + b) (2 * b) ltac:(lia)) as Hdm.
  pose proof (Z.mod_pos_bound (2 * a + b) (2 * b) ltac:(lia)) as Hm.
  lia.
Qed.

Lemma updateTask_tasks s p upd :
  AppState.tasks (updateTask s p upd)
  = map (fun x => if String.eqb (Task.id x) (Task.id upd) then upd else x)
        (AppState.tasks s).
Proof.
  unfold updateTask.
  destruct (AppState.userProfile s); [|reflexivity].
  match goal with |- context [if ?c then _ else _] => destruct c end;
    reflexivity.
Qed.

Lemma handleFocusSessionEnd_fields now durationMs s active :
  AppState.activeTaskForFocus s = Some active ->
  let s' := handleFocusSessionEnd now durationMs s in
  let durationMin := Math_round_div durationMs 60000 in
  AppState.tasks s'
  = map (fun x => if String.eqb (Task.id x) (Task.id active)
                  then focusUpdate now durationMs active else x)
        (AppState.tasks s)
  ∧ AppState.activeTaskForFocus s' = None
  ∧ AppState.userProfile s'
    = match AppState.userProfile s with
      | Some u =>
          if 0 <? durationMin
          then Some (UserProfile.withXp
                       (UserProfile.xpOrZero u + durationMin * 2) u)
          else AppState.userProfile
                 (updateTask s s (focusUpdate now durationMs active))
      | None => None
      end.
Proof.
  intros Ha s' durationMin. subst s' durationMin.
  unfold handleFocusSessionEnd. rewrite Ha.
  fold (focusUpdate now durationMs active).
  destruct (AppState.userProfile s) as [u|] eqn:Hu.
  - destruct (0 <? Math_round_div durationMs 60000); simpl;
      rewrite updateTask_tasks; repeat split.
  - simpl. rewrite updateTask_tasks. repeat split.
    unfold updateTask. rewrite Hu. simpl. exact Hu.
Qed.

(** C8.  Ending a focus session of [durationMs] on a duration task: the
    task handed to [updateTask], which replaces the task of that id in the
    list, has one more session record, the one of this session, after the
    ones it had, and a [current] larger by [durationMs] rounded to whole
    minutes; when that number of minutes is positive the xp field of the
    profile becomes the old xp, 0 if missing, plus twice that number, and
    otherwise the session awards nothing (the profile is as [updateTask]
    leaves it). *)
Theorem focus_session_on_duration_task
    (now : nat -> Z) (durationMs : Z) (s : AppState.t) (active : Task.t) :
  AppState.activeTaskForFocus s = Some active ->
  Task.type active = duration ->
  let s' := handleFocusSessionEnd now durationMs s in
  let durationMin := Math_round_div durationMs 60000 in
  60000 * durationMin - 30000 <= durationMs < 60000 * durationMin + 30000
  ∧ ∃ updated,
      AppState.tasks s'
      = map (fun x => if String.eqb (Task.id x) (Task.id active)
                      then updated else x) (AppState.tasks s)
      ∧ isFocusUpdateOf active updated
      ∧ Task.current updated = Task.current active + durationMin
      ∧ Task.sessions updated
        = Some (default [] (Task.sessions active)
                ++ [Session.mk (now 0%nat - durationMs) (now 1%nat)
                      durationMs])
      ∧ match AppState.userProfile s with
        | Some u =>
            if 0 <? durationMin
            then ∃ u',
                   AppState.userProfile s' = Some u'
                   ∧ UserProfile.xp u'
                     = Some (default 0 (UserProfile.xp u) + 2 * durationMin)
                   ∧ UserProfile.onboarded u' = UserProfile.onboarded u
                   ∧ UserProfile.presentation u'
                     = UserProfile.presentation u
            else AppState.userProfile s'
                 = AppState.userProfile (updateTask s s updated)
        | None => AppState.userProfile s' = None
        end.
Proof.
  intros Ha Hty s' durationMin.
  destruct (handleFocusSessionEnd_fields now durationMs s active Ha)
    as (Ht & _ & Hu).
  split.
  - pose proof (Math_round_div_nearest durationMs 60000 ltac:(lia)).
    subst durationMin. lia.
  - exists (focusUpdate now durationMs active).
    split; [exact Ht|].
    split; [repeat split|].
    unfold focusUpdate at 1 2. rewrite Hty. simpl.
    split; [reflexivity|].
    split; [unfold Task.sessionsOrEmpty; now destruct (Task.sessions active)|].
    subst s' durationMin. rewrite Hu.
    destruct (AppState.userProfile s) as [u|]; [|reflexivity].
    destruct (0 <? Math_round_div durationMs 60000); [|reflexivity].
    pose proof (xpAwarded_intro (2 * Math_round_div durationMs 60000)
                  (Some u)) as Haw.
    simpl in Haw. destruct Haw as (u' & [= <-] & Haw).
    eexists. split; [|exact Haw]. do 2 f_equal. lia.
Qed.

(** C5 as the code has it.  Ending a focus session awards twice the rounded
    number of minutes as xp whenever that number is positive and a profile
    exists, whatever the type of the task: the xp field of the profile
    becomes the old xp, 0 if missing, plus that amount, the other fields
    kept; the type decides only whether the task's [current] grows by the
    minutes (duration) or stays as it is (count). *)
Theorem focus_session_xp_whatever_type
    (now : nat -> Z) (durationMs : Z) (s : AppState.t) (active : Task.t)
    (u : UserProfile.t) :
  AppState.activeTaskForFocus s = Some active ->
  AppState.userProfile s = Some u ->
  0 < Math_round_div durationMs 60000 ->
  let s' := handleFocusSessionEnd now durationMs s in
  let durationMin := Math_round_div durationMs 60000 in
  (∃ u',
     AppState.userProfile s' = Some u'
     ∧ UserProfile.xp u'
       = Some (default 0 (UserProfile.xp u) + 2 * durationMin)
     ∧ UserProfile.onboarded u' = UserProfile.onboarded u
     ∧ UserProfile.presentation u' = UserProfile.presentation u)
  ∧ ∃ updated,
      AppState.tasks s'
      = map (fun x => if String.eqb (Task.id x) (Task.id active)
                      then updated else x) (AppState.tasks s)
      ∧ isFocusUpdateOf active updated
      ∧ Task.current updated
        = match Task.type active with
          | duration => Task.current active + durationMin
          | count => Task.current active
          end.
Proof.
  intros Ha Hu Hpos s' durationMin.
  destruct (handleFocusSessionEnd_fields now durationMs s active Ha)
    as (Ht & _ & Hp).
  split.
  - subst s' durationMin. rewrite Hp, Hu.
    apply Z.ltb_lt in Hpos. rewrite Hpos.
    pose proof (xpAwarded_intro (2 * Math_round_div durationMs 60000)
                  (Some u)) as Haw.
    simpl in Haw. destruct Haw as (u' & [= <-] & Haw).
    eexists. split; [|exact Haw]. do 2 f_equal. lia.
  - exists (focusUpdate now durationMs active).
    split; [exact Ht|]. split; repeat split.
Qed.

(** ** The store of objects *)

Lemma alloc_spec o (h h' : Heap.heap) l :
  Heap.alloc o h = (l, h') -> h !! l = None ∧ h' = <[l := o]> h.
Proof.
  unfold Heap.alloc. intros [= <- <-]. split; [|reflexivity].
  apply not_elem_of_dom, is_fresh.
Qed.

Lemma alloc_extends o (h h' : Heap.heap) l :
  Heap.alloc o h = (l, h') ->
  h ⊆ h' ∧ h' !! l = Some o ∧ (l ∉ dom h) ∧ (dom h' = {[l]} ∪ dom h).
Proof.
  intros H. apply alloc_spec in H as [Hn ->].
  split; [now apply insert_subseteq|].
  split; [apply lookup_insert_eq|].
  split; [now apply not_elem_of_dom|].
  apply dom_insert_L.
Qed.

Lemma extends_lookup (h h' : Heap.heap) x :
  h ⊆ h' -> x ∈ dom h -> h' !! x = h !! x.
Proof.
  intros Hsub [o Ho]%elem_of_dom. rewrite Ho.
  eapply lookup_weaken; eassumption.
Qed.

Lemma mapM_ext_in {A B} (f g : A -> option B) (ls : list A) :
  (∀ x, x ∈ ls -> f x = g x) -> mapM f ls = mapM g ls.
Proof.
  induction ls as [|x r IH]; intros H; [reflexivity|].
  simpl. rewrite (H x) by left.
  rewrite IH; [reflexivity|]. intros y Hy. apply H. now right.
Qed.

Lemma reading_extends {A} (r : Heap.heap -> nat -> option A) fp
    (h h' : Heap.heap) l v :
  localReading r fp -> boundedReading r fp ->
  h ⊆ h' -> r h l = Some v -> r h' l = Some v ∧ fp h' l = fp h l.
Proof.
  intros Hloc Hb Hsub Hr.
  destruct (Hloc h h' l) as [E1 E2].
  - intros x Hx. apply extends_lookup; [assumption|].
    eapply Hb; eassumption.
  - split; congruence.
Qed.

Section Array.
Context {A : Type}.
Variable r : Heap.heap -> nat -> option A.
Variable fp : Heap.heap -> nat -> gset nat.
Hypothesis r_local : localReading r fp.
Hypothesis r_bounded : boundedReading r fp.

Lemma readArray_local : localReading (Heap.readArray r) (Heap.fpArray fp).
Proof.
  intros h h' l Hag. unfold Heap.readArray, Heap.fpArray in *.
  rewrite (Hag l) by set_solver.
  destruct (h !! l) as [[| |ls| | |]|] eqn:E; try (split; reflexivity).
  assert (Hel : ∀ x, x ∈ ls -> r h' x = r h x ∧ fp h' x = fp h x).
  { intros x Hx. apply r_local. intros y Hy. apply Hag.
    apply elem_of_union_r, elem_of_union_list.
    exists (fp h x). split; [|exact Hy].
    apply list_elem_of_fmap. eauto. }
  split.
  - apply mapM_ext_in. intros x Hx. now apply Hel.
  - f_equal. f_equal. apply list_fmap_ext. intros i x Hx.
    apply Hel. eapply list_elem_of_lookup_2; eassumption.
Qed.

Lemma readArray_bounded :
  boundedReading (Heap.readArray r) (Heap.fpArray fp).
Proof.
  intros h l v. unfold Heap.readArray, Heap.fpArray.
  destruct (h !! l) as [[| |ls| | |]|] eqn:E; try discriminate.
  intros Hm. apply mapM_Some in Hm.
  apply union_subseteq. split.
  - apply singleton_subseteq_l, elem_of_dom. eauto.
  - intros y Hy. apply elem_of_union_list in Hy as (X & HX & Hy).
    apply list_elem_of_fmap in HX as (x & -> & Hx).
    apply list_elem_of_lookup in Hx as [i Hi].
    destruct (Forall2_lookup_l _ _ _ _ _ Hm Hi) as (w & _ & Hw).
    eapply r_bounded; eassumption.
Qed.

Lemma elements_extend (h h' : Heap.heap) ls vs :
  h ⊆ h' -> mapM (r h) ls = Some vs ->
  mapM (r h') ls = Some vs ∧ fp h' <$> ls = fp h <$> ls.
Proof.
  intros Hsub Hm. pose proof Hm as HF. apply mapM_Some in HF.
  assert (Hel : ∀ x, x ∈ ls -> r h' x = r h x ∧ fp h' x = fp h x).
  { intros x [i Hi]%list_elem_of_lookup.
    destruct (Forall2_lookup_l _ _ _ _ _ HF Hi) as (w & _ & Hw).
    destruct (reading_extends r fp h h' x w r_local r_bounded Hsub Hw).
    split; congruence. }
  split.
  - rewrite <- Hm. apply mapM_ext_in. intros x Hx. now apply Hel.
  - apply list_fmap_ext. intros i x Hi. apply Hel.
    eapply list_elem_of_lookup_2; eassumption.
Qed.

Variable f : A -> Heap.heap -> nat * Heap.heap.
Hypothesis f_builds : buildsFresh f r fp.

Lemma allocEach_builds vs (h h' : Heap.heap) ls :
  Heap.allocEach f vs h = (ls, h') ->
  h ⊆ h' ∧ mapM (r h') ls = Some vs
  ∧ ⋃ (fp h' <$> ls) ⊆ dom h' ∖ dom h.
Proof.
  revert h h' ls. induction vs as [|v rest IH]; intros h h' ls; simpl.
  - intros [= <- <-]. split; [reflexivity|]. split; [reflexivity|].
    simpl. set_solver.
  - destruct (f v h) as [l h1] eqn:Ef.
    destruct (Heap.allocEach f rest h1) as [ls' h2] eqn:Er.
    intros [= <- <-].
    destruct (f_builds _ _ _ _ Ef) as (S1 & R1 & F1).
    destruct (IH _ _ _ Er) as (S2 & R2 & F2).
    destruct (reading_extends r fp h1 h2 l v r_local r_bounded S2 R1)
      as [R1' F1'].
    pose proof (subseteq_dom _ _ S1) as D1.
    pose proof (subseteq_dom _ _ S2) as D2.
    split; [etrans; eassumption|]. split.
    + simpl. rewrite R1', R2. reflexivity.
    + simpl. rewrite F1'. set_solver.
Qed.

Lemma parseArray_builds :
  buildsFresh (Heap.parseArray f) (Heap.readArray r) (Heap.fpArray fp).
Proof.
  intros vs h h' l. unfold Heap.parseArray.
  destruct (Heap.allocEach f vs h) as [ls h1] eqn:Ee.
  intros Ha.
  destruct (allocEach_builds _ _ _ _ Ee) as (S1 & R1 & F1).
  destruct (alloc_extends _ _ _ _ Ha) as (S2 & L2 & N2 & D2).
  destruct (elements_extend h1 h' ls vs S2 R1) as [R1' F1'].
  pose proof (subseteq_dom _ _ S1) as D1.
  split; [etrans; eassumption|].
  unfold Heap.readArray, Heap.fpArray. rewrite L2.
  split; [exact R1'|]. rewrite F1'. set_solver.
Qed.

End Array.

(** *** Sessions, tasks and task lists *)

Lemma readSession_local : localReading Heap.readSession Heap.fpLeaf.
Proof.
  intros h h' l Hag. unfold Heap.readSession, Heap.fpLeaf in *.
  rewrite (Hag l) by set_solver. split; reflexivity.
Qed.

Lemma readSession_bounded : boundedReading Heap.readSession Heap.fpLeaf.
Proof.
  intros h l v. unfold Heap.readSession, Heap.fpLeaf.
  destruct (h !! l) eqn:E; [|discriminate]. intros _.
  apply singleton_subseteq_l, elem_of_dom. eauto.
Qed.

Lemma parseSession_builds :
  buildsFresh Heap.parseSession Heap.readSession Heap.fpLeaf.
Proof.
  intros v h h' l Ha.
  destruct (alloc_extends _ _ _ _ Ha) as (S1 & L1 & N1 & D1).
  split; [exact S1|]. unfold Heap.readSession, Heap.fpLeaf. rewrite L1.
  split; [reflexivity | set_solver].
Qed.

Lemma readTask_local : localReading Heap.readTask Heap.fpTask.
Proof.
  intros h h' l Hag. unfold Heap.readTask, Heap.fpTask in *.
  rewrite (Hag l) by set_solver.
  destruct (h !! l) as [[| | |o| |]|] eqn:E; try (split; reflexivity).
  assert (Htags : h' !! Heap.tags o = h !! Heap.tags o)
    by (apply Hag; set_solver).
  unfold Heap.readStrings. rewrite Htags.
  destruct (Heap.sessions o) as [sl|] eqn:Es; [|split; reflexivity].
  destruct (readArray_local Heap.readSession Heap.fpLeaf readSession_local
              readSession_bounded h h' sl) as [E1 E2].
  { intros x Hx. apply Hag. set_solver. }
  rewrite E1, E2. split; reflexivity.
Qed.

Lemma readTask_bounded : boundedReading Heap.readTask Heap.fpTask.
Proof.
  intros h l v. unfold Heap.readTask, Heap.fpTask.
  destruct (h !! l) as [[| | |o| |]|] eqn:E; try discriminate.
  intros Hr.
  assert (Hl : l ∈ dom h) by (apply elem_of_dom; eauto).
  destruct (Heap.sessions o) as [sl|] eqn:Es; simpl in Hr.
  - destruct (Heap.readArray Heap.readSession h sl) as [ss|] eqn:Ea;
      [|discriminate].
    pose proof (readArray_bounded Heap.readSession Heap.fpLeaf
                  readSession_bounded h sl ss Ea) as Hb.
    simpl in Hr. unfold Heap.readStrings in Hr.
    destruct (h !! Heap.tags o) as [t|] eqn:Et; [|discriminate].
    assert (Heap.tags o ∈ dom h) by (apply elem_of_dom; eauto).
    set_solver.
  - unfold Heap.readStrings in Hr.
    destruct (h !! Heap.tags o) as [t|] eqn:Et; [|discriminate].
    assert (Heap.tags o ∈ dom h) by (apply elem_of_dom; eauto).
    set_solver.
Qed.

Lemma parseTask_builds : buildsFresh Heap.parseTask Heap.readTask Heap.fpTask.
Proof.
  intros v h h' l. unfold Heap.parseTask.
  destruct v as [id title category type target unit current ss tags cA uA].
  cbn [Task.id Task.title Task.category Task.type Task.target Task.unit
       Task.current Task.sessions Task.tags Task.createdAt Task.updatedAt].
  destruct ss as [ss|].
  - destruct (Heap.parseArray Heap.parseSession ss h) as [sl h1] eqn:Ep.
    destruct (Heap.alloc (Heap.OStrings tags) h1) as [tl h2] eqn:Et.
    intros Ha.
    destruct (parseArray_builds Heap.readSession Heap.fpLeaf
                readSession_local readSession_bounded Heap.parseSession
                parseSession_builds ss h h1 sl Ep) as (S1 & R1 & F1).
    destruct (alloc_extends _ _ _ _ Et) as (S2 & L2 & N2 & D2).
    destruct (alloc_extends _ _ _ _ Ha) as (S3 & L3 & N3 & D3).
    assert (S13 : h1 ⊆ h') by (etrans; eassumption).
    destruct (reading_extends _ _ h1 h' sl ss
                (readArray_local _ _ readSession_local readSession_bounded)
                (readArray_bounded _ _ readSession_bounded) S13 R1)
      as [R1' F1'].
    pose proof (subseteq_dom _ _ S1) as D1.
    split; [etrans; eassumption|].
    unfold Heap.readTask, Heap.fpTask. rewrite L3. simpl.
    rewrite R1', F1'. simpl. unfold Heap.readStrings.
    rewrite (lookup_weaken _ _ _ _ L2 S3). simpl.
    split; [reflexivity | set_solver].
  - destruct (Heap.alloc (Heap.OStrings tags) h) as [tl h2] eqn:Et.
    intros Ha.
    destruct (alloc_extends _ _ _ _ Et) as (S2 & L2 & N2 & D2).
    destruct (alloc_extends _ _ _ _ Ha) as (S3 & L3 & N3 & D3).
    split; [etrans; eassumption|].
    unfold Heap.readTask, Heap.fpTask. rewrite L3. simpl.
    unfold Heap.readStrings.
    rewrite (lookup_weaken _ _ _ _ L2 S3). simpl.
    split; [reflexivity | set_solver].
Qed.

Lemma readTasks_local : localReading Heap.readTasks Heap.fpTasks.
Proof.
  apply readArray_local; [apply readTask_local | apply readTask_bounded].
Qed.

Lemma readTasks_bounded : boundedReading Heap.readTasks Heap.fpTasks.
Proof. apply readArray_bounded, readTask_bounded. Qed.

Lemma parseTasks_builds :
  buildsFresh Heap.parseTasks Heap.readTasks Heap.fpTasks.
Proof.
  apply parseArray_builds;
    auto using readTask_local, readTask_bounded, parseTask_builds.
Qed.

(** *** The reset on the store *)

Lemma resetTasks_cons now k v vs :
  resetTasks now k (v :: vs)
  = Task.reset (now k) v :: resetTasks now (S k) vs.
Proof.
  unfold resetTasks. rewrite imap_cons. f_equal.
  - f_equal. f_equal. lia.
  - apply imap_ext. intros i x _. simpl. do 2 f_equal. lia.
Qed.

Lemma resetTask_spec stamp l (h : Heap.heap) v :
  Heap.readTask h l = Some v ->
  ∃ l' h',
    Heap.resetTask stamp l h = Some (l', h')
    ∧ h ⊆ h'
    ∧ Heap.readTask h' l' = Some (Task.reset stamp v)
    ∧ Heap.fpTask h' l' ⊆ (dom h' ∖ dom h) ∪ Heap.fpTask h l.
Proof.
  intros Hr. pose proof (readTask_bounded h l v Hr) as Hb.
  unfold Heap.readTask, Heap.resetTask, Heap.fpTask in *.
  destruct (h !! l) as [[| | |o| |]|] eqn:E; try discriminate.
  destruct (Heap.alloc (Heap.OArray []) h) as [sl h1] eqn:E1.
  match goal with
  | |- context [Heap.alloc ?ob h1] =>
      destruct (Heap.alloc ob h1) as [l' h'] eqn:E2
  end.
  destruct (alloc_extends _ _ _ _ E1) as (S1 & L1 & N1 & D1).
  destruct (alloc_extends _ _ _ _ E2) as (S2 & L2 & N2 & D2).
  assert (S12 : h ⊆ h') by (etrans; eassumption).
  exists l', h'. split; [reflexivity|]. split; [exact S12|].
  rewrite L2. cbn [Heap.sessions Heap.tags].
  assert (Htg : ∃ tg, Heap.readStrings h (Heap.tags o) = Some tg
                      ∧ Task.tags v = tg).
  { destruct (match Heap.sessions o with
              | Some sl0 => Some <$> Heap.readArray Heap.readSession h sl0
              | None => Some None
              end) as [ss|]; [|discriminate Hr]. simpl in Hr.
    destruct (Heap.readStrings h (Heap.tags o)) as [tg|];
      [|discriminate Hr].
    simpl in Hr. injection Hr as <-. eauto. }
  destruct Htg as (tg & Htg & Hv).
  assert (Htg' : Heap.readStrings h' (Heap.tags o) = Some tg).
  { unfold Heap.readStrings in *.
    destruct (h !! Heap.tags o) as [ob|] eqn:Eo; [|discriminate].
    rewrite (lookup_weaken _ _ _ _ Eo S12). exact Htg. }
  split.
  - unfold Heap.readArray. rewrite (lookup_weaken _ _ _ _ L1 S2).
    simpl. rewrite Htg'. simpl.
    destruct (match Heap.sessions o with
              | Some sl0 => Some <$> Heap.readArray Heap.readSession h sl0
              | None => Some None
              end) as [ss|]; [|discriminate Hr]. simpl in Hr.
    rewrite Htg in Hr. simpl in Hr. injection Hr as <-. reflexivity.
  - unfold Heap.fpArray. rewrite (lookup_weaken _ _ _ _ L1 S2).
    simpl. set_solver.
Qed.

Lemma resetEach_spec now ls : ∀ k (h : Heap.heap) vs,
  mapM (Heap.readTask h) ls = Some vs ->
  ∃ ls' h',
    Heap.resetEach now k ls h = Some (ls', h')
    ∧ h ⊆ h'
    ∧ mapM (Heap.readTask h') ls' = Some (resetTasks now k vs)
    ∧ ⋃ (Heap.fpTask h' <$> ls')
      ⊆ (dom h' ∖ dom h) ∪ ⋃ (Heap.fpTask h <$> ls).
Proof.
  induction ls as [|l r IH]; intros k h vs Hm.
  - simpl in Hm. injection Hm as <-. exists [], h.
    split; [reflexivity|]. split; [reflexivity|].
    split; [reflexivity|]. simpl. set_solver.
  - simpl in Hm.
    destruct (Heap.readTask h l) as [v|] eqn:Hv; [|discriminate Hm].
    simpl in Hm.
    destruct (mapM (Heap.readTask h) r) as [vr|] eqn:Hr; [|discriminate Hm].
    simpl in Hm. injection Hm as <-.
    destruct (resetTask_spec (now k) l h v Hv)
      as (l' & h1 & E1 & S1 & R1 & F1).
    destruct (elements_extend Heap.readTask Heap.fpTask readTask_local
                readTask_bounded h h1 r vr S1 Hr) as [Hr1 Fr1].
    destruct (IH (S k) h1 vr Hr1) as (r' & h2 & E2 & S2 & R2 & F2).
    destruct (reading_extends _ _ h1 h2 l' _ readTask_local readTask_bounded
                S2 R1) as [R1' F1'].
    exists (l' :: r'), h2.
    split; [simpl; rewrite E1; simpl; rewrite E2; reflexivity|].
    split; [etrans; eassumption|].
    split.
    + simpl. rewrite R1', R2. simpl. now rewrite resetTasks_cons.
    + simpl. rewrite F1'. rewrite Fr1 in F2.
      pose proof (subseteq_dom _ _ S1). pose proof (subseteq_dom _ _ S2).
      set_solver.
Qed.

Lemma heap_resetTasks_spec now k tasksRef (h : Heap.heap) vs :
  Heap.readTasks h tasksRef = Some vs ->
  ∃ reset h',
    Heap.resetTasks now k tasksRef h = Some (reset, h')
    ∧ h ⊆ h'
    ∧ (reset ∉ dom h)
    ∧ Heap.readTasks h' reset = Some (resetTasks now k vs)
    ∧ Heap.fpTasks h' reset ⊆ (dom h' ∖ dom h) ∪ Heap.fpTasks h tasksRef.
Proof.
  unfold Heap.readTasks, Heap.fpTasks, Heap.readArray, Heap.fpArray,
    Heap.resetTasks.
  destruct (h !! tasksRef) as [[| |ls| | |]|] eqn:E; try discriminate.
  intros Hm.
  destruct (resetEach_spec now ls k h vs Hm) as (ls' & h1 & E1 & S1 & R1 & F1).
  rewrite E1. simpl.
  destruct (Heap.alloc (Heap.OArray ls') h1) as [reset h'] eqn:E2.
  destruct (alloc_extends _ _ _ _ E2) as (S2 & L2 & N2 & D2).
  destruct (elements_extend Heap.readTask Heap.fpTask readTask_local
              readTask_bounded h1 h' ls' _ S2 R1) as [R1' F1'].
  pose proof (subseteq_dom _ _ S1).
  exists reset, h'. split; [reflexivity|].
  split; [etrans; eassumption|].
  split; [set_solver|].
  rewrite L2. split; [exact R1'|]. rewrite F1'. set_solver.
Qed.

(** *** The archive on the store *)

Lemma readLogTasks_local : localReading Heap.readLogTasks Heap.fpLogTasks.
Proof.
  intros h h' l Hag. unfold Heap.readLogTasks, Heap.fpLogTasks in *.
  rewrite (Hag l) by set_solver.
  destruct (h !! l) as [[| | | | |d snap st]|] eqn:E; try (split; reflexivity).
  destruct (readTasks_local h h' snap) as [E1 E2].
  { intros x Hx. apply Hag. set_solver. }
  rewrite E1, E2. split; reflexivity.
Qed.

Lemma archive_spec date rate tasksRef historyRef (h : Heap.heap) v logs :
  Heap.readTasks h tasksRef = Some v ->
  h !! historyRef = Some (Heap.OArray logs) ->
  ∃ log newHistory h',
    Heap.archive date rate tasksRef historyRef h = Some (log, newHistory, h')
    ∧ h ⊆ h'
    ∧ h' !! newHistory = Some (Heap.OArray (logs ++ [log]))
    ∧ Heap.readLogTasks h' log = Some v
    ∧ Heap.fpLogTasks h' log ⊆ dom h' ∖ dom h.
Proof.
  intros Hr Hh. unfold Heap.archive, Heap.jsonClone. rewrite Hr.
  unfold mbind, option_bind.
  destruct (Heap.parseTasks v h) as [snap h1] eqn:Ep.
  destruct (parseTasks_builds v h h1 snap Ep) as (S1 & R1 & F1).
  destruct (Heap.alloc (Heap.OStats _) h1) as [stats h2] eqn:E2.
  destruct (Heap.alloc (Heap.ODayLog date snap stats) h2) as [log h3] eqn:E3.
  destruct (alloc_extends _ _ _ _ E2) as (S2 & L2 & N2 & D2).
  destruct (alloc_extends _ _ _ _ E3) as (S3 & L3 & N3 & D3).
  assert (S03 : h ⊆ h3) by (etrans; [exact S1 | etrans; eassumption]).
  rewrite (lookup_weaken _ _ _ _ Hh S03).
  destruct (Heap.alloc (Heap.OArray (logs ++ [log])) h3) as [nh h4] eqn:E4.
  destruct (alloc_extends _ _ _ _ E4) as (S4 & L4 & N4 & D4).
  assert (S14 : h1 ⊆ h4) by (etrans; [exact S2 | etrans; eassumption]).
  destruct (reading_extends _ _ h1 h4 snap v readTasks_local
              readTasks_bounded S14 R1) as [R1' F1'].
  pose proof (subseteq_dom _ _ S1).
  exists log, nh, h4. split; [reflexivity|].
  split; [etrans; eassumption|].
  split; [exact L4|].
  unfold Heap.readLogTasks, Heap.fpLogTasks.
  rewrite (lookup_weaken _ _ _ _ L3 S4).
  split; [exact R1'|]. rewrite F1'. set_solver.
Qed.

(** Archive, then reset: the day log reads as the tasks before the reset;
    what it reaches was created by the archive, so none of it existed
    before and none of it is reached from the task list, old or new; and
    the log reads the same in any store that agrees on what it reaches. *)
Lemma archive_then_reset_separate date rate now k tasksRef historyRef
    (h : Heap.heap) v logs :
  Heap.readTasks h tasksRef = Some v ->
  h !! historyRef = Some (Heap.OArray logs) ->
  ∃ log newHistory h1 reset h2,
    Heap.archive date rate tasksRef historyRef h = Some (log, newHistory, h1)
    ∧ Heap.resetTasks now k tasksRef h1 = Some (reset, h2)
    ∧ h2 !! newHistory = Some (Heap.OArray (logs ++ [log]))
    ∧ Heap.readTasks h2 reset = Some (resetTasks now k v)
    ∧ Heap.readLogTasks h2 log = Some v
    ∧ (∀ x, x ∈ Heap.fpLogTasks h2 log ->
            (x ∉ dom h)
            ∧ (x ∉ Heap.fpTasks h2 tasksRef)
            ∧ (x ∉ Heap.fpTasks h2 reset))
    ∧ (∀ h3 : Heap.heap,
         (∀ x, x ∈ Heap.fpLogTasks h2 log -> h3 !! x = h2 !! x) ->
         Heap.readLogTasks h3 log = Some v).
Proof.
  intros Hr Hh.
  destruct (archive_spec date rate tasksRef historyRef h v logs Hr Hh)
    as (log & nh & h1 & Ea & S1 & Lh & Rl & Fl).
  destruct (reading_extends _ _ h h1 tasksRef v readTasks_local
              readTasks_bounded S1 Hr) as [Hr1 Ft1].
  destruct (heap_resetTasks_spec now k tasksRef h1 v Hr1)
    as (reset & h2 & Er & S2 & Nr & Rr & Fr).
  destruct (reading_extends _ _ h1 h2 tasksRef v readTasks_local
              readTasks_bounded S2 Hr1) as [Hr2 Ft2].
  assert (Hagree : ∀ x, x ∈ Heap.fpLogTasks h1 log -> h2 !! x = h1 !! x).
  { intros x Hx. apply extends_lookup; [exact S2 | set_solver]. }
  destruct (readLogTasks_local h1 h2 log Hagree) as [Rl2 Fl2].
  pose proof (readTasks_bounded h tasksRef v Hr) as Bt.
  exists log, nh, h1, reset, h2.
  split; [exact Ea|]. split; [exact Er|].
  split; [exact (lookup_weaken _ _ _ _ Lh S2)|].
  split; [exact Rr|].
  split; [congruence|].
  split.
  - intros x Hx. rewrite Fl2 in Hx. rewrite Ft2, Ft1.
    split; [set_solver|]. split; [set_solver|].
    intros Hx'. apply Fr in Hx'. rewrite Ft1 in Hx'. set_solver.
  - intros h3 Hag. destruct (readLogTasks_local h2 h3 log Hag) as [E _].
    congruence.
Qed.

Lemma archivedApart_intro date rate now k tasksRef historyRef
    (h : Heap.heap) v logs log newHistory h1 reset h2 :
  Heap.readTasks h tasksRef = Some v ->
  h !! historyRef = Some (Heap.OArray logs) ->
  Heap.archive date rate tasksRef historyRef h = Some (log, newHistory, h1) ->
  Heap.resetTasks now k tasksRef h1 = Some (reset, h2) ->
  archivedApart h tasksRef v logs (resetTasks now k v)
    (Some (Heap.mkOutcome (Some log) newHistory reset h2)).
Proof.
  intros Hr Hh Ea Er.
  destruct (archive_then_reset_separate date rate now k tasksRef historyRef
              h v logs Hr Hh)
    as (log' & nh' & h1' & reset' & h2' & Ea' & Er' & Lh & Rr & Rl & Hsep
        & Hloc).
  rewrite Ea in Ea'. injection Ea' as <- <- <-.
  rewrite Er in Er'. injection Er' as <- <-.
  exists (Heap.mkOutcome (Some log) newHistory reset h2), log.
  cbn [Heap.logRef Heap.newHistoryRef Heap.newTasksRef Heap.store].
  repeat (split; [first [reflexivity | assumption]|]).
  split; [|exact Hloc].
  intros x ob Hx. apply Hloc. intros y Hy.
  destruct (Hsep y Hy) as (N1 & N2 & N3).
  apply lookup_insert_ne. intros ->. set_solver.
Qed.

(** The two models of [performEndDay] agree: read off the store, the new
    task array is the task list of the new state, and the tasks of the day
    log are those of the entry appended to the history. *)
Lemma heap_performEndDay_agrees
    (runEvaluator :
       list Task.t -> list DayLog.t -> option UserProfile.t -> Metrics.t)
    todayStr now quote s st tasksRef historyRef (h : Heap.heap) logs :
  Heap.readTasks h tasksRef = Some (AppState.tasks s) ->
  h !! historyRef = Some (Heap.OArray logs) ->
  let s' := (performEndDay runEvaluator todayStr now quote s st).1 in
  let rate :=
    Metrics.completionRate
      (runEvaluator (AppState.tasks s) (AppState.history s)
         (AppState.userProfile s)) in
  ∃ out log,
    Heap.performEndDay todayStr rate now tasksRef historyRef h = Some out
    ∧ Heap.logRef out = Some log
    ∧ Heap.readTasks (Heap.store out) (Heap.newTasksRef out)
      = Some (AppState.tasks s')
    ∧ Heap.readLogTasks (Heap.store out) log
      = DayLog.tasks <$> last (AppState.history s').
Proof.
  intros Hr Hh s' rate.
  destruct (archive_then_reset_separate todayStr rate now 0 tasksRef
              historyRef h _ logs Hr Hh)
    as (log & nh & h1 & reset & h2 & Ea & Er & _ & Rr & Rl & _).
  destruct (performEndDay_fields runEvaluator todayStr now quote s st)
    as (Hhist & Ht & _).
  unfold Heap.performEndDay. rewrite Ea. simpl. rewrite Er. simpl.
  do 2 eexists. split; [reflexivity|].
  cbn [Heap.logRef Heap.newTasksRef Heap.store].
  split; [reflexivity|]. subst s'. rewrite Ht, Hhist, last_snoc.
  split; assumption.
Qed.

(** C4.  On either path the day log's tasks are a structure of their own.
    Start from any store in which the task list reads as [v] and the
    history is an array.  [performEndDay] then yields a day log whose tasks
    read as [v], with the [current] and the sessions of before the reset,
    also after the reset has run; nothing the log reaches existed before
    the archive or is reached from the task list, before or after the
    reset, so that writing over any such object leaves the log's tasks as
    they are.  The automatic rollover does the same whenever it archives,
    that is, when some task has progress. *)
Theorem day_log_shares_nothing_with_tasks
    (date : string) (rate : Z) (now : nat -> Z) (k : nat)
    (tasksRef historyRef : nat) (h : Heap.heap) (v : list Task.t)
    (logs : list nat) :
  Heap.readTasks h tasksRef = Some v ->
  h !! historyRef = Some (Heap.OArray logs) ->
  archivedApart h tasksRef v logs (resetTasks now 0 v)
    (Heap.performEndDay date rate now tasksRef historyRef h)
  ∧ (hasProgress v = true ->
     archivedApart h tasksRef v logs (resetTasks now k v)
       (Heap.automaticRollover date rate now k tasksRef historyRef h)).
Proof.
  intros Hr Hh. split.
  - destruct (archive_then_reset_separate date rate now 0 tasksRef
                historyRef h v logs Hr Hh)
      as (log & nh & h1 & reset & h2 & Ea & Er & _).
    unfold Heap.performEndDay. rewrite Ea. simpl. rewrite Er. simpl.
    eapply archivedApart_intro; eassumption.
  - intros Hp.
    destruct (archive_then_reset_separate date rate now k tasksRef
                historyRef h v logs Hr Hh)
      as (log & nh & h1 & reset & h2 & Ea & Er & _).
    unfold Heap.automaticRollover. rewrite Hr. simpl. rewrite Hp, Ea. simpl.
    rewrite Er. simpl.
    eapply archivedApart_intro; eassumption.
Qed.

(** * The program on sample data *)

(** ** The reference evaluator on the scenarios of the spec *)

Example evaluator_single_complete_task :
  Evaluator.completionRate
    [Task.mk "a" "A" "General" count 10 "reps" 10 (Some []) [] 0 0] = 100.
Proof. reflexivity. Qed.

Example evaluator_two_tasks :
  Evaluator.completionRate
    [Task.mk "a" "A" "General" count 10 "reps" 5 (Some []) [] 0 0;
     Task.mk "b" "B" "General" count 4 "reps" 4 (Some []) [] 0 0] = 75.
Proof. reflexivity. Qed.

Example evaluator_streak_broken :
  Evaluator.streak
    (map (fun r => DayLog.mk "d" [] (DayLog.mkStats r 0)) [90; 60; 30]) = 0.
Proof. reflexivity. Qed.

Example evaluator_streak_of_two :
  Evaluator.streak
    (map (fun r => DayLog.mk "d" [] (DayLog.mkStats r 0)) [30; 90; 90]) = 2.
Proof. reflexivity. Qed.

(** ** Manual end of day with no progress at all (scenario E) *)

Example performEndDay_without_progress :
  let s := AppState.mk (Some Example.user) DEFAULT_AI_CONFIG "Focus"
             [Example.untouched] [] "2024-06-10" None
             (RewardState.mk false 0 "") false [] in
  let s' := (performEndDay Evaluator.runEvaluator "2024-06-10" Example.clock
               "Onward." s Example.yesterdayIdle).1 in
  hasProgress (AppState.tasks s) = false
  ∧ AppState.history s'
    = [DayLog.mk "2024-06-10" [Example.untouched] (DayLog.mkStats 0 0)]
  ∧ UserProfile.xp <$> AppState.userProfile s' = Some (Some 120).
Proof. vm_compute. repeat split. Qed.

(** ** Automatic rollover *)

Lemma automatic_rollover_resets_and_redates_witness :
  storageParses Example.yesterdayIdle = true
  ∧ Storage.elevate_last_date Example.yesterdayIdle = Some "2024-06-09"
  ∧ "2024-06-09" ≠ ""
  ∧ "2024-06-09" ≠ "2024-06-10"
  ∧ ∃ s' st',
      startupEffect Evaluator.runEvaluator "2024-06-10" Example.clock
        Example.yesterdayIdle = Some (s', st')
      ∧ AppState.history s' = []
      ∧ Forall2 isResetOf [Example.untouched] (AppState.tasks s')
      ∧ AppState.lastActiveDate s' = "2024-06-10"
      ∧ Storage.elevate_last_date st' = Some "2024-06-10".
Proof.
  assert (H1 : storageParses Example.yesterdayIdle = true) by reflexivity.
  assert (H2 : Storage.elevate_last_date Example.yesterdayIdle
               = Some "2024-06-09") by reflexivity.
  assert (H3 : "2024-06-09" ≠ "") by discriminate.
  assert (H4 : "2024-06-09" ≠ "2024-06-10") by discriminate.
  do 4 (split; [assumption|]).
  destruct (automatic_rollover_resets_and_redates Evaluator.runEvaluator
              "2024-06-10" Example.clock Example.yesterdayIdle "2024-06-09"
              H1 H2 H3 H4)
    as (s' & st' & Hrun & Hno & Hres & _ & Hl & Hd).
  exists s', st'. split; [exact Hrun|].
  split; [exact (proj1 (Hno eq_refl))|].
  split; [exact Hres|]. split; [exact Hl | exact Hd].
Defined.

Lemma automatic_rollover_idempotent_witness :
  ∃ s1 st1,
    startupEffect Evaluator.runEvaluator "2024-06-10" Example.clock
      Example.yesterday = Some (s1, st1)
    ∧ ∃ s2,
        startupEffect Evaluator.runEvaluator "2024-06-10"
          (fun k => Example.clock (k + 100)) st1 = Some (s2, st1)
        ∧ AppState.tasks s2 = AppState.tasks s1
        ∧ AppState.history s2 = AppState.history s1
        ∧ AppState.lastActiveDate s2 = AppState.lastActiveDate s1.
Proof.
  destruct (startupEffect Evaluator.runEvaluator "2024-06-10" Example.clock
              Example.yesterday) as [[s1 st1]|] eqn:E; [|discriminate E].
  exists s1, st1. split; [reflexivity|].
  exact (automatic_rollover_idempotent Evaluator.runEvaluator "2024-06-10"
           Example.clock (fun k => Example.clock (k + 100))
           Example.yesterday st1 s1 E).
Defined.

Lemma automatic_rollover_keeps_profile_witness :
  storageParses Example.yesterday = true
  ∧ Storage.elevate_last_date Example.yesterday = Some "2024-06-09"
  ∧ "2024-06-09" ≠ ""
  ∧ "2024-06-09" ≠ "2024-06-10"
  ∧ hasProgress (storedTasks Example.yesterday) = true
  ∧ ∃ s' st',
      startupEffect Evaluator.runEvaluator "2024-06-10" Example.clock
        Example.yesterday = Some (s', st')
      ∧ length (AppState.history s') = 1%nat
      ∧ AppState.userProfile s' = Some Example.user
      ∧ Storage.elevate_user st' = Some (WellFormed Example.user).
Proof.
  assert (H1 : storageParses Example.yesterday = true) by reflexivity.
  assert (H2 : Storage.elevate_last_date Example.yesterday
               = Some "2024-06-09") by reflexivity.
  assert (H3 : "2024-06-09" ≠ "") by discriminate.
  assert (H4 : "2024-06-09" ≠ "2024-06-10") by discriminate.
  assert (H5 : hasProgress (storedTasks Example.yesterday) = true)
    by reflexivity.
  do 5 (split; [assumption|]).
  exact (automatic_rollover_keeps_profile Evaluator.runEvaluator
           "2024-06-10" Example.clock Example.yesterday "2024-06-09"
           H1 H2 H3 H4 H5).
Defined.

(** C6 as stated fails: on this store the date has changed and a task has
    progress, the day is archived, and the profile comes out as it was
    stored, in the state and in the store. *)
Lemma automatic_rollover_does_not_update_profile :
  hasProgress (storedTasks Example.yesterday) = true
  ∧ storedProfile Example.yesterday = Some Example.user
  ∧ ∃ s' st',
      startupEffect Evaluator.runEvaluator "2024-06-10" Example.clock
        Example.yesterday = Some (s', st')
      ∧ length (AppState.history s') = 1%nat
      ∧ AppState.userProfile s' = Some Example.user
      ∧ UserProfile.xp <$> AppState.userProfile s' = Some (Some 120)
      ∧ Storage.elevate_user st' = Storage.elevate_user Example.yesterday.
Proof.
  split; [reflexivity|]. split; [reflexivity|].
  vm_compute. do 2 eexists. repeat split.
Qed.

Lemma archive_then_reset_frame_witness :
  storageParses Example.yesterday = true
  ∧ Storage.elevate_last_date Example.yesterday = Some "2024-06-09"
  ∧ "2024-06-09" ≠ ""
  ∧ "2024-06-09" ≠ "2024-06-10"
  ∧ hasProgress (storedTasks Example.yesterday) = true
  ∧ (let s := Example.state None in
     let s' := (performEndDay Evaluator.runEvaluator "2024-06-10"
                  Example.clock "Onward." s Example.yesterday).1 in
     length (AppState.history s') = S (length (AppState.history s))
     ∧ Forall2 isResetOf (AppState.tasks s) (AppState.tasks s'))
  ∧ ∃ s' st',
      startupEffect Evaluator.runEvaluator "2024-06-10" Example.clock
        Example.yesterday = Some (s', st')
      ∧ length (AppState.history s')
        = S (length (storedHistory Example.yesterday))
      ∧ Forall2 isResetOf (storedTasks Example.yesterday) (AppState.tasks s').
Proof.
  assert (H1 : storageParses Example.yesterday = true) by reflexivity.
  assert (H2 : Storage.elevate_last_date Example.yesterday
               = Some "2024-06-09") by reflexivity.
  assert (H3 : "2024-06-09" ≠ "") by discriminate.
  assert (H4 : "2024-06-09" ≠ "2024-06-10") by discriminate.
  assert (H5 : hasProgress (storedTasks Example.yesterday) = true)
    by reflexivity.
  do 5 (split; [assumption|]).
  destruct (archive_then_reset_frame Evaluator.runEvaluator "2024-06-10"
              Example.clock) as [Hmanual Hauto].
  split.
  - exact (Hmanual "Onward." (Example.state None) Example.yesterday).
  - exact (Hauto Example.yesterday "2024-06-09" H1 H2 H3 H4 H5).
Defined.

Lemma first_run_initialises_date_only_witness :
  storageParses Example.firstRun = true
  ∧ truthy (Storage.elevate_last_date Example.firstRun) = false
  ∧ ∃ s' st',
      startupEffect Evaluator.runEvaluator "2024-06-10" Example.clock
        Example.firstRun = Some (s', st')
      ∧ AppState.lastActiveDate s' = "2024-06-10"
      ∧ Storage.elevate_last_date st' = Some "2024-06-10"
      ∧ Storage.elevate_tasks st' = Storage.elevate_tasks Example.firstRun
      ∧ Storage.elevate_history st' = Storage.elevate_history Example.firstRun
      ∧ AppState.history s' = []
      ∧ AppState.tasks s' = [Example.reading].
Proof.
  assert (H1 : storageParses Example.firstRun = true) by reflexivity.
  assert (H2 : truthy (Storage.elevate_last_date Example.firstRun) = false)
    by reflexivity.
  do 2 (split; [assumption|]).
  destruct (first_run_initialises_date_only Evaluator.runEvaluator
              "2024-06-10" Example.clock Example.firstRun H1 H2)
    as (s' & st' & Hrun & Hl & Hd & Ht & Hh & Hhs & Hts & _).
  exists s', st'. repeat (split; [assumption|]). exact Hts.
Defined.

(** ** Focus sessions *)

(** Scenario F: thirty minutes on a duration task. *)
Lemma focus_session_on_duration_task_witness :
  let s := Example.state (Some Example.deepWork) in
  let s' := handleFocusSessionEnd Example.clock 1800000 s in
  AppState.activeTaskForFocus s = Some Example.deepWork
  ∧ Task.type Example.deepWork = duration
  ∧ Math_round_div 1800000 60000 = 30
  ∧ ∃ updated,
      AppState.tasks s' = [Example.reading; updated]
      ∧ Task.current updated = Task.current Example.deepWork + 30
      ∧ Task.sessions updated
        = Some [Session.mk 1717950000000 1717951800000 1800000;
                Session.mk (Example.clock 0 - 1800000) (Example.clock 1)
                  1800000]
      ∧ UserProfile.xp <$> AppState.userProfile s' = Some (Some (120 + 60)).
Proof.
  intros s s'. subst s'.
  assert (H1 : AppState.activeTaskForFocus s = Some Example.deepWork)
    by reflexivity.
  assert (H2 : Task.type Example.deepWork = duration) by reflexivity.
  do 2 (split; [assumption|]). split; [reflexivity|].
  destruct (focus_session_on_duration_task Example.clock 1800000 s
              Example.deepWork H1 H2)
    as (_ & updated & Ht & _ & Hc & Hs & Hu).
  assert (Hu' : ∃ u',
            AppState.userProfile
              (handleFocusSessionEnd Example.clock 1800000 s) = Some u'
            ∧ UserProfile.xp u' = Some (120 + 60)
            ∧ UserProfile.onboarded u' = UserProfile.onboarded Example.user
            ∧ UserProfile.presentation u'
              = UserProfile.presentation Example.user) by exact Hu.
  destruct Hu' as (u' & Hu1 & Hu2 & _).
  exists updated. split; [exact Ht|]. split; [exact Hc|].
  split; [exact Hs|]. rewrite Hu1. simpl. rewrite Hu2. reflexivity.
Defined.

Lemma focus_session_xp_whatever_type_witness :
  let s := Example.state (Some Example.reading) in
  let s' := handleFocusSessionEnd Example.clock 1800000 s in
  AppState.activeTaskForFocus s = Some Example.reading
  ∧ AppState.userProfile s = Some Example.user
  ∧ 0 < Math_round_div 1800000 60000
  ∧ Task.type Example.reading = count
  ∧ UserProfile.xp <$> AppState.userProfile s' = Some (Some (120 + 2 * 30))
  ∧ ∃ updated,
      AppState.tasks s' = [updated; Example.deepWork]
      ∧ Task.current updated = Task.current Example.reading.
Proof.
  intros s s'. subst s'.
  assert (H1 : AppState.activeTaskForFocus s = Some Example.reading)
    by reflexivity.
  assert (H2 : AppState.userProfile s = Some Example.user) by reflexivity.
  assert (H3 : 0 < Math_round_div 1800000 60000) by reflexivity.
  do 3 (split; [assumption|]). split; [reflexivity|].
  destruct (focus_session_xp_whatever_type Example.clock 1800000 s
              Example.reading Example.user H1 H2 H3)
    as ((u' & Hu1 & Hu2 & _) & updated & Ht & _ & Hc).
  split; [rewrite Hu1; simpl; rewrite Hu2; reflexivity|].
  exists updated. split; [exact Ht | exact Hc].
Defined.

(** C5 as stated fails: thirty minutes of focus on a count task, which
    this session does not complete, raise the xp from 120 to 180. *)
Lemma focus_session_on_count_task_awards_xp :
  let s := Example.state (Some Example.reading) in
  let s' := handleFocusSessionEnd Example.clock 1800000 s in
  Task.type Example.reading = count
  ∧ UserProfile.xp <$> AppState.userProfile s = Some (Some 120)
  ∧ UserProfile.xp <$> AppState.userProfile s' = Some (Some 180)
  ∧ AppState.userProfile s'
    ≠ AppState.userProfile (updateTask s s
                              (focusUpdate Example.clock 1800000
                                 Example.reading)).
Proof. vm_compute. repeat split. discriminate. Qed.

(** ** The day log among the objects *)

Lemma day_log_shares_nothing_with_tasks_witness :
  let tasksRef := Example.objects.1.1 in
  let historyRef := Example.objects.1.2 in
  let h := Example.objects.2 in
  let v := [Example.reading; Example.deepWork] in
  Heap.readTasks h tasksRef = Some v
  ∧ h !! historyRef = Some (Heap.OArray [])
  ∧ hasProgress v = true
  ∧ archivedApart h tasksRef v [] (resetTasks Example.clock 0 v)
      (Heap.performEndDay "2024-06-10" 38 Example.clock tasksRef historyRef h)
  ∧ archivedApart h tasksRef v [] (resetTasks Example.clock 1 v)
      (Heap.automaticRollover "2024-06-09" 38 Example.clock 1 tasksRef
         historyRef h).
Proof.
  intros tasksRef historyRef h v.
  assert (H1 : Heap.readTasks h tasksRef = Some v)
    by (vm_compute; reflexivity).
  assert (H2 : h !! historyRef = Some (Heap.OArray []))
    by (vm_compute; reflexivity).
  assert (H3 : hasProgress v = true) by reflexivity.
  do 3 (split; [assumption|]).
  split.
  - exact (proj1 (day_log_shares_nothing_with_tasks "2024-06-10" 38
                    Example.clock 1 tasksRef historyRef h v [] H1 H2)).
  - exact (proj2 (day_log_shares_nothing_with_tasks "2024-06-09" 38
                    Example.clock 1 tasksRef historyRef h v [] H1 H2) H3).
Defined.

(** * More properties *)

(** ** The weekly figure *)

Lemma rate_sum_bounds (l : list DayLog.t) lo hi : ∀ acc,
  Forall (fun d => lo <= DayLog.completionRate (DayLog.stats d) <= hi) l ->
  acc + Z.of_nat (length l) * lo
  <= fold_left
       (fun a curr => a + DayLog.completionRate (DayLog.stats curr)) l acc
  <= acc + Z.of_nat (length l) * hi.
Proof.
  induction l as [|d r IH]; intros acc HF.
  - simpl. lia.
  - apply Forall_cons in HF as [Hd Hr].
    specialize (IH (acc + DayLog.completionRate (DayLog.stats d)) Hr).
    cbn [fold_left length]. lia.
Qed.

Lemma Math_round_div_between a n lo hi :
  0 < n -> n * lo <= a <= n * hi -> lo <= Math_round_div a n <= hi.
Proof.
  intros Hn Ha. unfold Math_round_div. split.
  - apply Z.div_le_lower_bound; nia.
  - apply Z.lt_succ_r, Z.div_lt_upper_bound; nia.
Qed.

Lemma sliceLast_nonempty {A} (l : list A) :
  l ≠ [] -> (0 < length (sliceLast 7 l))%nat.
Proof.
  intros Hl. unfold sliceLast. rewrite length_drop.
  destruct l; [contradiction|]. simpl. lia.
Qed.

(** X1.  The weekly figure lies between the smallest and the largest
    completion rate of the last seven archived days; with rates between 0
    and 100 it is a percentage, and on seven equal days it is their rate.
    With no history it is 0. *)
Theorem getWeeklyProgress_within_recent_rates
    (history : list DayLog.t) (lo hi : Z) :
  history ≠ [] ->
  Forall (fun d => lo <= DayLog.completionRate (DayLog.stats d) <= hi)
    (sliceLast 7 history) ->
  lo <= getWeeklyProgress history <= hi ∧ getWeeklyProgress [] = 0.
Proof.
  intros Hne HF. split; [|reflexivity].
  unfold getWeeklyProgress.
  destruct history as [|d r]; [contradiction|].
  cbn [length Nat.eqb].
  pose proof (sliceLast_nonempty (d :: r) Hne) as Hlen.
  pose proof (rate_sum_bounds _ lo hi 0 HF) as Hs.
  apply Math_round_div_between; lia.
Qed.

(** X2.  Only the last seven archived days count: whatever lies before
    them leaves the weekly figure as it is. *)
Theorem getWeeklyProgress_ignores_older_days
    (older recent : list DayLog.t) :
  length recent = 7%nat ->
  getWeeklyProgress (older ++ recent) = getWeeklyProgress recent.
Proof.
  intros Hlen. unfold getWeeklyProgress.
  assert (Hs : sliceLast 7 (older ++ recent) = sliceLast 7 recent).
  { unfold sliceLast. rewrite length_app, Hlen.
    replace (length older + 7 - 7)%nat with (length older) by lia.
    rewrite drop_app_length. reflexivity. }
  rewrite Hs, length_app, Hlen.
  destruct (length older + 7 =? 0)%nat eqn:E;
    [apply Nat.eqb_eq in E; lia | reflexivity].
Qed.

(** ** Blank and visible text *)

Lemma trimIsEmpty_white (s : string) :
  (∀ c, In c (list_ascii_of_string s) -> isAsciiWhiteSpace c = true) ->
  trimIsEmpty s = true.
Proof.
  induction s as [|a r IH]; intros H; [reflexivity|].
  cbn [trimIsEmpty]. rewrite (H a) by (left; reflexivity).
  apply IH. intros c Hc. apply H. right. exact Hc.
Qed.

Lemma isWhiteSpace3_high a b c :
  isWhiteSpace3 a b c = true ->
  (128 <= Ascii.nat_of_ascii a)%nat ∧ (128 <= Ascii.nat_of_ascii b)%nat
  ∧ (128 <= Ascii.nat_of_ascii c)%nat.
Proof.
  unfold isWhiteSpace3.
  rewrite !orb_true_iff, !andb_true_iff, !orb_true_iff, !andb_true_iff,
    !Nat.eqb_eq, !Nat.leb_le.
  lia.
Qed.

Lemma trimIsEmpty_visible_bounded (n : nat) : ∀ s,
  (String.length s <= n)%nat ->
  (∃ c, In c (list_ascii_of_string s)
        ∧ (33 <= Ascii.nat_of_ascii c <= 126)%nat) ->
  trimIsEmpty s = false.
Proof.
  induction n as [|n IH]; intros s Hlen (c & Hin & Hc).
  - destruct s; simpl in *; [contradiction | lia].
  - destruct s as [|a r]; [contradiction|].
    cbn [trimIsEmpty]. cbn [String.length] in Hlen.
    destruct (isAsciiWhiteSpace a) eqn:Wa.
    + apply IH; [lia|]. exists c. split; [|exact Hc].
      destruct Hin as [<-|Hin]; [|exact Hin].
      unfold isAsciiWhiteSpace in Wa.
      rewrite orb_true_iff, andb_true_iff, !Nat.leb_le, Nat.eqb_eq in Wa.
      lia.
    + destruct r as [|b r2]; [reflexivity|].
      cbn [String.length] in Hlen.
      destruct (isByte 194 a && isByte 160 b) eqn:W2.
      * apply IH; [lia|]. exists c. split; [|exact Hc].
        unfold isByte in W2.
        rewrite andb_true_iff, !Nat.eqb_eq in W2.
        destruct Hin as [<-|[<-|Hin]]; [lia | lia | exact Hin].
      * destruct r2 as [|d r3]; [reflexivity|].
        cbn [String.length] in Hlen.
        destruct (isWhiteSpace3 a b d) eqn:W3; [|reflexivity].
        apply isWhiteSpace3_high in W3.
        apply IH; [lia|]. exists c. split; [|exact Hc].
        destruct Hin as [<-|[<-|[<-|Hin]]]; [lia | lia | lia | exact Hin].
Qed.

Lemma trimIsEmpty_visible (s : string) :
  (∃ c, In c (list_ascii_of_string s)
        ∧ (33 <= Ascii.nat_of_ascii c <= 126)%nat) ->
  trimIsEmpty s = false.
Proof. apply (trimIsEmpty_visible_bounded (String.length s)). lia. Qed.

(** ** Adding a task *)

(** X3.  A title that is empty or made of spaces, tabs and line breaks only
    adds nothing: [addTask] leaves the state and the form as they are, and
    no xp is awarded. *)
Theorem addTask_rejects_blank_title
    (now : nat -> Z) (form : TaskForm.t) (s : AppState.t) :
  (∀ c, In c (list_ascii_of_string (TaskForm.newTaskTitle form)) ->
        isAsciiWhiteSpace c = true) ->
  addTask now form s = (s, form).
Proof.
  intros H. unfold addTask. rewrite (trimIsEmpty_white _ H). reflexivity.
Qed.

(** X4.  A title with at least one visible ASCII character is accepted,
    whatever surrounds it: the task list gets exactly one more task, at its
    end, with that title untrimmed, the target and type of the form, the
    unit "min" for a duration task and the form's unit otherwise, no
    progress and no sessions; the tasks there before are untouched; the xp
    field of the profile becomes the old xp, 0 if missing, plus 10, its
    other fields kept; the title field of the form becomes the empty
    string and the other fields of the form are kept. *)
Theorem addTask_appends_fresh_task
    (now : nat -> Z) (form : TaskForm.t) (s : AppState.t) :
  (∃ c, In c (list_ascii_of_string (TaskForm.newTaskTitle form))
        ∧ (33 <= Ascii.nat_of_ascii c <= 126)%nat) ->
  let r := addTask now form s in
  (∃ newTask,
     AppState.tasks r.1 = AppState.tasks s ++ [newTask]
     ∧ Task.title newTask = TaskForm.newTaskTitle form
     ∧ Task.type newTask = TaskForm.newTaskType form
     ∧ Task.target newTask = TaskForm.newTaskTarget form
     ∧ Task.unit newTask
       = (if decide (TaskForm.newTaskType form = duration)
          then "min" else TaskForm.newTaskUnit form)
     ∧ Task.current newTask = 0
     ∧ Task.sessions newTask = Some [])
  ∧ hasProgress (AppState.tasks r.1) = hasProgress (AppState.tasks s)
  ∧ match AppState.userProfile s with
    | Some u =>
        ∃ u',
          AppState.userProfile r.1 = Some u'
          ∧ UserProfile.xp u' = Some (default 0 (UserProfile.xp u) + 10)
          ∧ UserProfile.onboarded u' = UserProfile.onboarded u
          ∧ UserProfile.presentation u' = UserProfile.presentation u
    | None => AppState.userProfile r.1 = None
    end
  ∧ AppState.history r.1 = AppState.history s
  ∧ TaskForm.newTaskTitle r.2 = ""
  ∧ TaskForm.newTaskTarget r.2 = TaskForm.newTaskTarget form
  ∧ TaskForm.newTaskType r.2 = TaskForm.newTaskType form
  ∧ TaskForm.newTaskUnit r.2 = TaskForm.newTaskUnit form.
Proof.
  intros Hv r. subst r. unfold addTask.
  rewrite (trimIsEmpty_visible _ Hv).
  pose proof (xpAwarded_intro 10 (AppState.userProfile s)) as Haw.
  destruct (AppState.userProfile s) as [u|] eqn:Hu; simpl; rewrite ?Hu.
  all: split; [eexists; split; [reflexivity|]; repeat split;
               destruct (TaskForm.newTaskType form); reflexivity|].
  all: split; [unfold hasProgress; rewrite existsb_app; simpl;
               now rewrite !orb_false_r|].
  - split; [exact Haw|]. repeat split.
  - repeat split.
Qed.

(** ** Deleting a task *)

Lemma filter_sublist {A} (f : A -> bool) (l : list A) :
  sublist (List.filter f l) l.
Proof.
  induction l as [|x r IH]; simpl; [constructor|].
  destruct (f x); [now apply sublist_skip | now apply sublist_cons].
Qed.

Lemma setTasks_same s : AppState.setTasks (AppState.tasks s) s = s.
Proof. destruct s; reflexivity. Qed.

Lemma filter_all {A} (f : A -> bool) (l : list A) :
  (∀ x, In x l -> f x = true) -> List.filter f l = l.
Proof.
  induction l as [|x r IH]; intros H; simpl; [reflexivity|].
  rewrite (H x) by (left; reflexivity). f_equal. apply IH.
  intros y Hy. apply H. now right.
Qed.

(** X5.  Confirming a deletion removes the tasks of that id and nothing
    else: the remaining tasks are exactly those with another id, in the
    order they had; history and profile are untouched; and when no task has
    the id the state is left as it is. *)
Theorem deleteTask_removes_only_that_id (id : string) (p : AppState.t) :
  let p' := deleteTask_onConfirm id p in
  (∀ x, In x (AppState.tasks p') <-> In x (AppState.tasks p) ∧ Task.id x ≠ id)
  ∧ sublist (AppState.tasks p') (AppState.tasks p)
  ∧ AppState.history p' = AppState.history p
  ∧ AppState.userProfile p' = AppState.userProfile p
  ∧ ((∀ x, In x (AppState.tasks p) -> Task.id x ≠ id) -> p' = p).
Proof.
  intros p'. subst p'. unfold deleteTask_onConfirm. cbn [AppState.tasks
    AppState.setTasks AppState.history AppState.userProfile].
  split; [|split; [|split; [|split]]].
  - intros x. rewrite filter_In, negb_true_iff.
    destruct (String.eqb_spec (Task.id x) id); split; intros [H1 H2];
      split; congruence.
  - apply filter_sublist.
  - reflexivity.
  - reflexivity.
  - intros H. rewrite filter_all; [apply setTasks_same|].
    intros x Hx. apply negb_true_iff.
    destruct (String.eqb_spec (Task.id x) id) as [E|]; [|reflexivity].
    now apply H in Hx.
Qed.

(** ** Updating a task *)

Lemma replace_by_id_twice upd (l : list Task.t) :
  let f := fun x : Task.t =>
             if String.eqb (Task.id x) (Task.id upd) then upd else x in
  map f (map f l) = map f l.
Proof.
  intros f. rewrite map_map. apply map_ext. intros x. subst f. cbv beta.
  destruct (String.eqb (Task.id x) (Task.id upd)) eqn:E.
  - now rewrite String.eqb_refl.
  - now rewrite E.
Qed.

Lemma find_after_replace upd (l : list Task.t) :
  let f := fun x : Task.t =>
             if String.eqb (Task.id x) (Task.id upd) then upd else x in
  find (fun x => String.eqb (Task.id x) (Task.id upd)) (map f l)
  = match find (fun x => String.eqb (Task.id x) (Task.id upd)) l with
    | Some _ => Some upd
    | None => None
    end.
Proof.
  intros f. induction l as [|x r IH]; [reflexivity|].
  subst f. cbn [map find].
  destruct (String.eqb (Task.id x) (Task.id upd)) eqn:E.
  - now rewrite String.eqb_refl.
  - rewrite E. exact IH.
Qed.

Lemma replace_by_id_absent upd (l : list Task.t) :
  (∀ x, In x l -> Task.id x ≠ Task.id upd) ->
  map (fun x : Task.t =>
         if String.eqb (Task.id x) (Task.id upd) then upd else x) l = l
  ∧ find (fun x => String.eqb (Task.id x) (Task.id upd)) l = None.
Proof.
  induction l as [|x r IH]; intros H; [split; reflexivity|].
  assert (E : String.eqb (Task.id x) (Task.id upd) = false).
  { apply String.eqb_neq, H. now left. }
  destruct IH as [IH1 IH2]; [intros y Hy; apply H; now right|].
  cbn [map find]. rewrite E, IH1, IH2. split; reflexivity.
Qed.

(** X6.  [updateTask] keeps the list in shape: the tasks keep their
    positions and ids, a task of another id is left exactly as it was, and
    a task of the updated id is replaced by the update. *)
Theorem updateTask_keeps_positions_and_ids
    (s p : AppState.t) (updatedTask : Task.t) :
  let l' := AppState.tasks (updateTask s p updatedTask) in
  map Task.id l' = map Task.id (AppState.tasks s)
  ∧ ∀ (i : nat) (x : Task.t),
      AppState.tasks s !! i = Some x ->
      l' !! i = Some (if decide (Task.id x = Task.id updatedTask)
                      then updatedTask else x).
Proof.
  intros l'. subst l'. rewrite updateTask_tasks. split.
  - rewrite map_map. apply map_ext. intros x.
    destruct (String.eqb_spec (Task.id x) (Task.id updatedTask));
      congruence.
  - intros i x Hx. rewrite list_lookup_fmap, Hx. simpl. f_equal.
    destruct (String.eqb_spec (Task.id x) (Task.id updatedTask));
      destruct (decide (Task.id x = Task.id updatedTask));
      congruence.
Qed.

(** X7.  Applying the same update again changes nothing: the list already
    holds the update, and the completion award of 50 xp, given when the
    update took the task from below its target to its target, is not given
    a second time. *)
Theorem updateTask_idempotent (s : AppState.t) (updatedTask : Task.t) :
  let s1 := updateTask s s updatedTask in
  updateTask s1 s1 updatedTask = s1.
Proof.
  intros s1.
  assert (Ht : AppState.tasks s1
               = map (fun x => if String.eqb (Task.id x) (Task.id updatedTask)
                               then updatedTask else x) (AppState.tasks s))
    by apply updateTask_tasks.
  unfold updateTask at 1.
  rewrite Ht, replace_by_id_twice, find_after_replace, <- Ht, setTasks_same.
  destruct (AppState.userProfile s1); [|reflexivity].
  destruct (find _ (AppState.tasks s)); [|reflexivity].
  destruct (Z.ltb_spec (Task.current updatedTask) (Task.target updatedTask));
    destruct (Z.leb_spec (Task.target updatedTask)
                (Task.current updatedTask));
    try reflexivity; lia.
Qed.

(** X8.  An update for an id no task has is dropped: the list, the profile
    and everything else stay as they are, whatever progress the update
    carries. *)
Theorem updateTask_unknown_id_is_noop (s : AppState.t) (updatedTask : Task.t) :
  (∀ x, In x (AppState.tasks s) -> Task.id x ≠ Task.id updatedTask) ->
  updateTask s s updatedTask = s.
Proof.
  intros H. destruct (replace_by_id_absent updatedTask _ H) as [Hm Hf].
  unfold updateTask. rewrite Hm, Hf, setTasks_same.
  destruct (AppState.userProfile s); reflexivity.
Qed.

(** ** The profile under the handlers *)

Lemma profileGrew_award (o : option UserProfile.t) (n : Z) :
  0 <= n ->
  profileGrew o
    ((fun u => UserProfile.withXp (UserProfile.xpOrZero u + n) u) <$> o).
Proof.
  intros Hn. destruct o as [u|]; simpl; [|exact I].
  unfold UserProfile.xpOrZero at 2. simpl. repeat split. lia.
Qed.

Lemma profileGrew_refl (o : option UserProfile.t) : profileGrew o o.
Proof. destruct o; simpl; [repeat split; lia | exact I]. Qed.

Lemma updateTask_profile s upd :
  ∃ n, 0 <= n
       ∧ AppState.userProfile (updateTask s s upd)
         = (fun u => UserProfile.withXp (UserProfile.xpOrZero u + n) u)
           <$> AppState.userProfile s
       ∨ AppState.userProfile (updateTask s s upd) = AppState.userProfile s.
Proof.
  exists 50. unfold updateTask.
  destruct (AppState.userProfile s) as [u|] eqn:Hu; [|right; exact Hu].
  match goal with |- context [if ?c then _ else _] => destruct c end.
  - left. split; [lia | reflexivity].
  - right. exact Hu.
Qed.

(** X9.  No handler lowers the xp or touches the rest of the profile:
    after [addTask], [updateTask], [performEndDay],
    [handleFocusSessionEnd] and a confirmed deletion the profile, if there
    is one, has the same fields and at least the xp it had, and none
    appears where there was none. *)
Theorem handlers_never_lower_xp
    (runEvaluator :
       list Task.t -> list DayLog.t -> option UserProfile.t -> Metrics.t)
    (todayStr : string) (now : nat -> Z) (quote id : string)
    (durationMs : Z) (form : TaskForm.t) (updatedTask : Task.t)
    (s : AppState.t) (st : Storage.t) :
  let before := AppState.userProfile s in
  profileGrew before (AppState.userProfile (addTask now form s).1)
  ∧ profileGrew before (AppState.userProfile (updateTask s s updatedTask))
  ∧ profileGrew before
      (AppState.userProfile
         (performEndDay runEvaluator todayStr now quote s st).1)
  ∧ profileGrew before
      (AppState.userProfile (handleFocusSessionEnd now durationMs s))
  ∧ profileGrew before (AppState.userProfile (deleteTask_onConfirm id s)).
Proof.
  intros before. subst before.
  assert (Hupd : ∀ upd, profileGrew (AppState.userProfile s)
                          (AppState.userProfile (updateTask s s upd))).
  { intros upd. destruct (updateTask_profile s upd) as (n & [[Hn E]|E]);
      rewrite E; [now apply profileGrew_award | apply profileGrew_refl]. }
  split; [|split; [|split; [|split]]].
  - unfold addTask. destruct (trimIsEmpty _); [apply profileGrew_refl|].
    destruct (AppState.userProfile s) as [u|] eqn:Hu; simpl; rewrite ?Hu.
    + apply (profileGrew_award (Some u) 10). lia.
    + exact I.
  - apply Hupd.
  - destruct (performEndDay_fields runEvaluator todayStr now quote s st)
      as (_ & _ & Hp & _).
    cbv zeta in Hp. rewrite Hp. apply profileGrew_award.
    destruct (bonusXpOf_cases
                (Metrics.completionRate
                   (runEvaluator (AppState.tasks s) (AppState.history s)
                      (AppState.userProfile s))))
      as [[_ ->]|[[_ ->]|[_ ->]]]; lia.
  - destruct (AppState.activeTaskForFocus s) as [a|] eqn:Ha.
    + destruct (handleFocusSessionEnd_fields now durationMs s a Ha)
        as (_ & _ & Hp).
      cbv zeta in Hp. rewrite Hp.
      destruct (AppState.userProfile s) as [u|] eqn:Hu; [|exact I].
      destruct (Z.ltb_spec 0 (Math_round_div durationMs 60000)).
      * apply (profileGrew_award (Some u)). lia.
      * apply Hupd.
    + unfold handleFocusSessionEnd. rewrite Ha. apply profileGrew_refl.
  - apply profileGrew_refl.
Qed.

(** ** Storing and loading *)

Lemma loadStored_all now st :
  storageParses st = true ->
  ∃ p k,
    loadStored now st
    = Some (map Task.migrate (storedTasks st), storedHistory st, p, k)
    ∧ AppState.tasks p = map Task.migrate (storedTasks st)
    ∧ AppState.history p = storedHistory st
    ∧ AppState.lastActiveDate p = loadedDate st
    ∧ AppState.userProfile p = storedProfile st
    ∧ AppState.aiConfig p = storedAiConfig st
    ∧ AppState.theme p = storedTheme st
    ∧ AppState.isAutoSpeechEnabled p = storedAutoSpeech st.
Proof.
  destruct st as [u a th ts h d au].
  unfold storageParses, loadStored, storedTasks, storedHistory, loadedDate,
    storedProfile, storedAiConfig, storedTheme, storedAutoSpeech; simpl.
  intros Hp.
  destruct u as [[|u]|]; try discriminate Hp;
    destruct a as [[|a]|]; try discriminate Hp;
    destruct au as [[|au]|]; try discriminate Hp;
    destruct h as [[|h]|]; try discriminate Hp;
    destruct ts as [[|ts]|]; destruct (truthy th); destruct (truthy d);
    simpl; do 2 eexists; repeat split.
Qed.

Lemma automaticRollover_frame
    (runEvaluator :
       list Task.t -> list DayLog.t -> option UserProfile.t -> Metrics.t)
    today now k cT cH p st :
  let r := automaticRollover runEvaluator today now k cT cH p st in
  AppState.userProfile r.1 = AppState.userProfile p
  ∧ AppState.aiConfig r.1 = AppState.aiConfig p
  ∧ AppState.theme r.1 = AppState.theme p
  ∧ AppState.isAutoSpeechEnabled r.1 = AppState.isAutoSpeechEnabled p
  ∧ Storage.elevate_user r.2 = Storage.elevate_user st
  ∧ Storage.elevate_ai r.2 = Storage.elevate_ai st
  ∧ Storage.elevate_theme r.2 = Storage.elevate_theme st
  ∧ Storage.elevate_auto_speech r.2 = Storage.elevate_auto_speech st.
Proof.
  unfold automaticRollover.
  destruct (truthy (Storage.elevate_last_date st)
            && negb (String.eqb (default "" (Storage.elevate_last_date st))
                       today)).
  - destruct (hasProgress cT); simpl; repeat split.
  - destruct (negb (truthy (Storage.elevate_last_date st))); simpl;
      repeat split.
Qed.

Lemma persistEffect_keys today s st :
  let st' := persistEffect today s st in
  Storage.elevate_user st'
  = match AppState.userProfile s with
    | Some u => Some (WellFormed u)
    | None => Storage.elevate_user st
    end
  ∧ Storage.elevate_ai st' = Some (WellFormed (AppState.aiConfig s))
  ∧ Storage.elevate_theme st' = Some (AppState.theme s)
  ∧ Storage.elevate_tasks st' = Some (WellFormed (AppState.tasks s))
  ∧ Storage.elevate_history st' = Some (WellFormed (AppState.history s))
  ∧ Storage.elevate_auto_speech st'
    = Some (WellFormed (AppState.isAutoSpeechEnabled s))
  ∧ Storage.elevate_last_date st' = Some today.
Proof.
  unfold persistEffect. destruct (AppState.userProfile s); repeat split.
Qed.

Lemma persistEffect_parses today s st :
  (AppState.userProfile s = None ->
   parsesOrAbsent (Storage.elevate_user st) = true) ->
  storageParses (persistEffect today s st) = true.
Proof.
  intros Hu.
  destruct (persistEffect_keys today s st) as (Ku & Ka & _ & _ & Kh & Kau & _).
  unfold storageParses. rewrite Ku, Ka, Kh, Kau.
  destruct (AppState.userProfile s); [reflexivity|].
  rewrite Hu by reflexivity. reflexivity.
Qed.

(** X10.  What the persistence effect stores, a start-up on the same day
    loads back: the task list (every task with a sessions array), the
    history, the profile, the AI configuration, the theme and the speech
    switch are those of the stored state, the date is today's, nothing is
    archived or reset, and the store is left as it was written.  The theme
    must be a non-empty name, and without a profile the entry stored
    before must parse. *)
Theorem persist_then_startup_restores
    (runEvaluator :
       list Task.t -> list DayLog.t -> option UserProfile.t -> Metrics.t)
    (todayStr : string) (now : nat -> Z) (s : AppState.t) (st : Storage.t) :
  AppState.theme s ≠ "" ->
  (AppState.userProfile s = None ->
   parsesOrAbsent (Storage.elevate_user st) = true) ->
  let st' := persistEffect todayStr s st in
  ∃ s',
    startupEffect runEvaluator todayStr now st' = Some (s', st')
    ∧ AppState.tasks s' = map Task.migrate (AppState.tasks s)
    ∧ AppState.history s' = AppState.history s
    ∧ AppState.aiConfig s' = AppState.aiConfig s
    ∧ AppState.theme s' = AppState.theme s
    ∧ AppState.isAutoSpeechEnabled s' = AppState.isAutoSpeechEnabled s
    ∧ AppState.lastActiveDate s' = todayStr
    ∧ (∀ u, AppState.userProfile s = Some u ->
            AppState.userProfile s' = Some u).
Proof.
  intros Hth Hu st'.
  pose proof (persistEffect_parses todayStr s st Hu) as Hp.
  destruct (persistEffect_keys todayStr s st)
    as (Ku & Ka & Kth & Kt & Kh & Kau & Kd).
  fold st' in Hp, Ku, Ka, Kth, Kt, Kh, Kau, Kd.
  destruct (loadStored_all now st' Hp)
    as (p & k & Hl & Pt & Ph & Pd & Pu & Pa & Pth & Pau).
  pose proof (automaticRollover_frame runEvaluator todayStr now k
                (map Task.migrate (storedTasks st')) (storedHistory st')
                p st') as Hfr.
  cbv zeta in Hfr. destruct Hfr as (Fu & Fa & Fth & Fau & _).
  destruct (startupEffect_dated_today runEvaluator todayStr now st' Hp Kd)
    as (s' & Hrun & St & Sh & Sd & Su).
  assert (Hs' : s' = (automaticRollover runEvaluator todayStr now k
                        (map Task.migrate (storedTasks st'))
                        (storedHistory st') p st').1).
  { unfold startupEffect in Hrun. rewrite Hl in Hrun. simpl in Hrun.
    injection Hrun as Hrun. now rewrite Hrun. }
  exists s'. split; [exact Hrun|].
  rewrite <- Hs' in Fa, Fth, Fau.
  split; [rewrite St; unfold storedTasks; now rewrite Kt|].
  split; [rewrite Sh; unfold storedHistory; now rewrite Kh|].
  split; [rewrite Fa, Pa; unfold storedAiConfig; now rewrite Ka|].
  split.
  { rewrite Fth, Pth. unfold storedTheme. rewrite Kth.
    apply truthy_Some in Hth. rewrite Hth. reflexivity. }
  split; [rewrite Fau, Pau; unfold storedAutoSpeech; now rewrite Kau|].
  split; [exact Sd|].
  intros u Hsu. rewrite Su. unfold storedProfile. rewrite Ku, Hsu.
  reflexivity.
Qed.

(** ** Ending the day and starting the next *)

Lemma hasProgress_resetTasks now k ts :
  hasProgress (resetTasks now k ts) = false.
Proof.
  apply hasProgress_false, Forall_forall. intros x Hx.
  apply list_elem_of_lookup in Hx as [i Hi].
  rewrite resetTasks_lookup in Hi.
  destruct (ts !! i); [|discriminate]. injection Hi as <-. simpl. lia.
Qed.

Lemma resetTasks_twice_Forall2 now now' k k' ts :
  Forall2 isResetOf ts (resetTasks now' k' (resetTasks now k ts)).
Proof.
  apply Forall2_same_length_lookup_2.
  - now rewrite !resetTasks_length.
  - intros i x y Hx Hy. rewrite !resetTasks_lookup, Hx in Hy.
    injection Hy as <-. repeat split.
Qed.

(** X11.  A day ended by hand is not archived a second time.  After
    [performEndDay] on day [d] and the persistence pass it triggers, the
    start-up of another day finds no progress: it appends nothing, so the
    history still ends with the one log [performEndDay] made, in the state
    and in the store, and the tasks are still reset. *)
Theorem ended_day_is_not_archived_again
    (runEvaluator :
       list Task.t -> list DayLog.t -> option UserProfile.t -> Metrics.t)
    (d todayStr : string) (now now' : nat -> Z) (quote : string)
    (s : AppState.t) (st : Storage.t) :
  d ≠ "" -> d ≠ todayStr ->
  (AppState.userProfile s = None ->
   parsesOrAbsent (Storage.elevate_user st) = true) ->
  let ended := performEndDay runEvaluator d now quote s st in
  let stored := persistEffect d ended.1 ended.2 in
  ∃ s' st',
    startupEffect runEvaluator todayStr now' stored = Some (s', st')
    ∧ AppState.history s' = AppState.history ended.1
    ∧ length (AppState.history s') = S (length (AppState.history s))
    ∧ Storage.elevate_history st'
      = Some (WellFormed (AppState.history ended.1))
    ∧ Forall2 isResetOf (AppState.tasks s) (AppState.tasks s')
    ∧ AppState.lastActiveDate s' = todayStr.
Proof.
  intros Hd Hday Hu ended stored.
  destruct (performEndDay_fields runEvaluator d now quote s st)
    as (Eh & Et & Ep & _).
  fold ended in Eh, Et, Ep.
  assert (Hu' : AppState.userProfile ended.1 = None ->
                parsesOrAbsent (Storage.elevate_user ended.2) = true).
  { intros HN. rewrite Ep in HN.
    destruct (AppState.userProfile s) eqn:E; [discriminate HN|].
    subst ended. unfold performEndDay. rewrite E.
    destruct (0 <? Metrics.streak _); simpl; now apply Hu. }
  pose proof (persistEffect_parses d ended.1 ended.2 Hu') as Hp.
  destruct (persistEffect_keys d ended.1 ended.2)
    as (_ & _ & _ & Kt & Kh & _ & Kd).
  fold stored in Hp, Kt, Kh, Kd.
  destruct (startupEffect_newDay runEvaluator todayStr now' stored d
              Hp Kd Hd Hday)
    as (s' & st' & k & Hrun & Ht & _ & Hl & _ & _ & _ & Hhist).
  assert (Hts : storedTasks stored = resetTasks now 0 (AppState.tasks s))
    by (unfold storedTasks; rewrite Kt, Et; reflexivity).
  assert (Hhs : storedHistory stored = AppState.history ended.1)
    by (unfold storedHistory; rewrite Kh; reflexivity).
  rewrite Hts, hasProgress_resetTasks in Hhist. destruct Hhist as [H1 H2].
  exists s', st'. split; [exact Hrun|].
  split; [congruence|].
  split; [rewrite H1, Hhs, Eh, length_app; simpl; lia|].
  split; [congruence|].
  split; [rewrite Ht, Hts; apply resetTasks_twice_Forall2 | exact Hl].
Qed.

(** X12.  The log the automatic rollover appends is dated with the stored
    date, not today's; it holds the loaded tasks as they were before the
    reset; its completion rate is the evaluator's on the loaded tasks and
    history, called without a profile; and its total focus time is 0
    whatever sessions the tasks carry. *)
Theorem automatic_archive_log_content
    (runEvaluator :
       list Task.t -> list DayLog.t -> option UserProfile.t -> Metrics.t)
    (todayStr : string) (now : nat -> Z) (st : Storage.t) (d : string) :
  storageParses st = true ->
  Storage.elevate_last_date st = Some d -> d ≠ "" -> d ≠ todayStr ->
  hasProgress (storedTasks st) = true ->
  ∃ s' st',
    startupEffect runEvaluator todayStr now st = Some (s', st')
    ∧ AppState.history s'
      = storedHistory st
        ++ [DayLog.mk d (map Task.migrate (storedTasks st))
              (DayLog.mkStats
                 (Metrics.completionRate
                    (runEvaluator (map Task.migrate (storedTasks st))
                       (storedHistory st) None)) 0)]
    ∧ Storage.elevate_history st' = Some (WellFormed (AppState.history s')).
Proof.
  intros Hp Hd Hne Hday Hprog.
  destruct (startupEffect_runs runEvaluator todayStr now st Hp)
    as (p & k & Hrun & _).
  pose proof (automaticRollover_newDay runEvaluator todayStr now k
                (map Task.migrate (storedTasks st)) (storedHistory st) p st
                d Hd Hne Hday) as H.
  cbv zeta in H.
  destruct (automaticRollover _ _ _ _ _ _ _ _) as [s' st'] eqn:E.
  simpl in H. destruct H as (_ & _ & _ & _ & _ & _ & _ & _ & Hhist).
  rewrite hasProgress_migrate, Hprog in Hhist. destruct Hhist as [H1 H2].
  exists s', st'. split; [exact Hrun|]. split; [exact H1 | congruence].
Qed.

Lemma automaticRollover_newDay_messages
    (runEvaluator :
       list Task.t -> list DayLog.t -> option UserProfile.t -> Metrics.t)
    today now k cT cH p st d :
  Storage.elevate_last_date st = Some d -> d ≠ "" -> d ≠ today ->
  ∃ m,
    AppState.messages
      (automaticRollover runEvaluator today now k cT cH p st).1
    = AppState.messages p ++ [m]
    ∧ ChatMessage.role m = "system"
    ∧ ChatMessage.text m = newDayText d.
Proof.
  intros Hd Hne Hday. unfold automaticRollover. rewrite Hd.
  assert (Ht : truthy (Some d) = true) by now apply truthy_Some.
  rewrite Ht. simpl default.
  destruct (String.eqb_spec d today) as [|_]; [contradiction|].
  simpl negb. simpl andb. cbv iota.
  destruct (hasProgress cT); simpl; eexists; repeat split.
Qed.

(** X13.  The rollover reports an archive on every change of date, also
    when it archived nothing: with a stored date other than today's and no
    task with progress, the history is left as it was and the last message
    is still the system message saying the data of the stored date has
    been archived. *)
Theorem rollover_message_without_archive
    (runEvaluator :
       list Task.t -> list DayLog.t -> option UserProfile.t -> Metrics.t)
    (todayStr : string) (now : nat -> Z) (st : Storage.t) (d : string) :
  storageParses st = true ->
  Storage.elevate_last_date st = Some d -> d ≠ "" -> d ≠ todayStr ->
  hasProgress (storedTasks st) = false ->
  ∃ s' st' m,
    startupEffect runEvaluator todayStr now st = Some (s', st')
    ∧ AppState.history s' = storedHistory st
    ∧ Storage.elevate_history st' = Storage.elevate_history st
    ∧ last (AppState.messages s') = Some m
    ∧ ChatMessage.role m = "system"
    ∧ ChatMessage.text m = newDayText d.
Proof.
  intros Hp Hd Hne Hday Hprog.
  destruct (startupEffect_runs runEvaluator todayStr now st Hp)
    as (p & k & Hrun & _ & Hh & _).
  pose proof (automaticRollover_newDay runEvaluator todayStr now k
                (map Task.migrate (storedTasks st)) (storedHistory st) p st
                d Hd Hne Hday) as H.
  destruct (automaticRollover_newDay_messages runEvaluator todayStr now k
              (map Task.migrate (storedTasks st)) (storedHistory st) p st
              d Hd Hne Hday) as (m & Hm & Hr & Htx).
  cbv zeta in H.
  destruct (automaticRollover _ _ _ _ _ _ _ _) as [s' st'] eqn:E.
  simpl in H, Hm. destruct H as (_ & _ & _ & _ & _ & _ & _ & _ & Hhist).
  rewrite hasProgress_migrate, Hprog in Hhist. destruct Hhist as [H1 H2].
  exists s', st', m. split; [exact Hrun|].
  split; [congruence|]. split; [exact H2|].
  split; [rewrite Hm; apply last_snoc|]. split; assumption.
Qed.

(** ** Stores that do not parse *)

(** X14.  The start-up effect is aborted by a thrown [JSON.parse] exactly
    when the stored profile, AI configuration, speech switch or history
    does not parse; the stored tasks never abort it.  When it is aborted
    nothing has been written. *)
Theorem startupEffect_aborts_iff_unparsable
    (runEvaluator :
       list Task.t -> list DayLog.t -> option UserProfile.t -> Metrics.t)
    (todayStr : string) (now : nat -> Z) (st : Storage.t) :
  (startupEffect runEvaluator todayStr now st = None
   <-> storageParses st = false)
  ∧ ∀ j, storageParses (Storage.setTasksKey j st) = storageParses st.
Proof.
  split; [|intros j; destruct st; reflexivity].
  split.
  - intros HN. destruct (storageParses st) eqn:Hp; [|reflexivity].
    destruct (startupEffect_runs runEvaluator todayStr now st Hp)
      as (p & k & Hrun & _).
    congruence.
  - intros Hp.
    destruct (startupEffect runEvaluator todayStr now st) as [r|] eqn:E;
      [|reflexivity].
    apply startupEffect_Some_parses in E. congruence.
Qed.

(** X15.  Stored tasks that do not parse are read as no tasks at all: the
    start-up effect runs to its end with an empty task list and archives
    nothing; on a change of date the unreadable entry is overwritten with
    the empty list, and otherwise it is left in the store. *)
Theorem malformed_tasks_read_as_empty
    (runEvaluator :
       list Task.t -> list DayLog.t -> option UserProfile.t -> Metrics.t)
    (todayStr : string) (now : nat -> Z) (st : Storage.t) :
  storageParses st = true ->
  Storage.elevate_tasks st = Some Malformed ->
  ∃ s' st',
    startupEffect runEvaluator todayStr now st = Some (s', st')
    ∧ AppState.tasks s' = []
    ∧ AppState.history s' = storedHistory st
    ∧ Storage.elevate_history st' = Storage.elevate_history st
    ∧ Storage.elevate_tasks st'
      = if truthy (Storage.elevate_last_date st)
           && negb (String.eqb (default "" (Storage.elevate_last_date st))
                      todayStr)
        then Some (WellFormed [])
        else Some Malformed.
Proof.
  intros Hp Hm.
  destruct (startupEffect_runs runEvaluator todayStr now st Hp)
    as (p & k & Hrun & Ht & Hh & _).
  assert (Hs : storedTasks st = []) by (unfold storedTasks; now rewrite Hm).
  rewrite Hs in Hrun, Ht. simpl in Hrun, Ht.
  exists (automaticRollover runEvaluator todayStr now k []
            (storedHistory st) p st).1,
         (automaticRollover runEvaluator todayStr now k []
            (storedHistory st) p st).2.
  split; [rewrite Hrun; now destruct (automaticRollover _ _ _ _ _ _ _ _)|].
  unfold automaticRollover.
  destruct (truthy (Storage.elevate_last_date st)
            && negb (String.eqb (default "" (Storage.elevate_last_date st))
                       todayStr)) eqn:C.
  - simpl. repeat split. exact Hh.
  - destruct (negb (truthy (Storage.elevate_last_date st))); simpl;
      repeat split; assumption.
Qed.

(** ** The chat round trip *)

Lemma append_nonempty (a b : string) : a ≠ "" -> a +:+ b ≠ "".
Proof. destruct a; [congruence | discriminate]. Qed.

Lemma offlineReply_shape
    (runEvaluator :
       list Task.t -> list DayLog.t -> option UserProfile.t -> Metrics.t)
    now s e :
  ChatMessage.role (offlineReply runEvaluator now s e) = "model"
  ∧ ChatMessage.text (offlineReply runEvaluator now s e) ≠ "".
Proof.
  unfold offlineReply. cbn [ChatMessage.role ChatMessage.text].
  split; [reflexivity | discriminate].
Qed.

(** X16.  A message that is sent is always answered, and sending touches
    nothing but the conversation.  With a non-blank input and a profile,
    however the call to the model ends, the conversation grows by exactly
    the user's message followed by one reply of the model with non-empty
    text; the input is cleared and the typing flag is off again; tasks,
    history and profile are as before. *)
Theorem handleSendMessage_always_answers
    (runEvaluator :
       list Task.t -> list DayLog.t -> option UserProfile.t -> Metrics.t)
    (apiKey : string) (now : nat -> Z) (outcome : GenAiOutcome)
    (form : ChatForm.t) (s : AppState.t) (u : UserProfile.t) :
  trimIsEmpty (ChatForm.inputText form) = false ->
  AppState.userProfile s = Some u ->
  let r := handleSendMessage runEvaluator apiKey now outcome form s in
  (∃ reply,
     AppState.messages r.1.1
     = AppState.messages s
       ++ [ChatMessage.mk (toString (now 0%nat)) "user"
             (ChatForm.inputText form) (now 1%nat); reply]
     ∧ ChatMessage.role reply = "model"
     ∧ ChatMessage.text reply ≠ "")
  ∧ r.1.2 = ChatForm.mk "" false
  ∧ AppState.tasks r.1.1 = AppState.tasks s
  ∧ AppState.history r.1.1 = AppState.history s
  ∧ AppState.userProfile r.1.1 = AppState.userProfile s.
Proof.
  intros Hin Hu r. subst r.
  unfold handleSendMessage, handleSendMessage_begin.
  rewrite Hin, Hu. cbn [orb negb bool_decide].
  rewrite bool_decide_eq_true_2 by eauto. cbn [negb].
  unfold handleSendMessage_settle.
  destruct (if negb (truthy (Some apiKey)) || trimIsEmpty apiKey
            then Threw (newError
                          "API Key is missing in environment variables.")
            else outcome) as [response|e].
  - cbn [fst snd AppState.messages AppState.pushMessage AppState.tasks
         AppState.history AppState.userProfile ChatForm.inputText].
    split; [|repeat split; exact Hu].
    eexists. split; [rewrite <- app_assoc; reflexivity|].
    cbn [ChatMessage.role ChatMessage.text]. split; [reflexivity|].
    destruct response as [t|]; cbn [truthy]; [|discriminate].
    destruct (String.eqb_spec t ""); cbn [negb default];
      [discriminate | assumption].
  - cbn [fst snd AppState.messages AppState.pushMessage AppState.tasks
         AppState.history AppState.userProfile ChatForm.inputText].
    split; [|repeat split; exact Hu].
    eexists. split; [rewrite <- app_assoc; reflexivity|].
    apply offlineReply_shape.
Qed.

(** X17.  A blank input, or a missing profile, sends nothing: the handler
    returns at once and the conversation, the input and everything else
    stay as they are. *)
Theorem handleSendMessage_ignores_blank_input
    (runEvaluator :
       list Task.t -> list DayLog.t -> option UserProfile.t -> Metrics.t)
    (apiKey : string) (now : nat -> Z) (outcome : GenAiOutcome)
    (form : ChatForm.t) (s : AppState.t) :
  (∀ c, In c (list_ascii_of_string (ChatForm.inputText form)) ->
        isAsciiWhiteSpace c = true)
  ∨ AppState.userProfile s = None ->
  handleSendMessage runEvaluator apiKey now outcome form s = (s, form, None).
Proof.
  intros [Hb|Hn]; unfold handleSendMessage, handleSendMessage_begin.
  - rewrite (trimIsEmpty_white _ Hb). reflexivity.
  - rewrite Hn. rewrite bool_decide_eq_false_2 by (intros [? ?]; discriminate).
    rewrite orb_true_r. reflexivity.
Qed.

(** X18.  Without an API key — none in the build environment, an empty
    one, or one of white space only — no call is made: whatever the model
    would have done, the reply is the offline text naming the API key
    configuration and carrying the evaluator's summary, and nothing is
    spoken. *)
Theorem handleSendMessage_without_api_key
    (runEvaluator :
       list Task.t -> list DayLog.t -> option UserProfile.t -> Metrics.t)
    (envApiKey : option string) (now : nat -> Z) (outcome : GenAiOutcome)
    (form : ChatForm.t) (s : AppState.t) (u : UserProfile.t) :
  trimIsEmpty (ChatForm.inputText form) = false ->
  AppState.userProfile s = Some u ->
  trimIsEmpty (injectedApiKey envApiKey) = true ->
  let r := handleSendMessage runEvaluator (injectedApiKey envApiKey) now
             outcome form s in
  last (AppState.messages r.1.1)
  = Some (ChatMessage.mk (toString (now 2%nat)) "model"
            ("Offline Mode (Check API Key configuration). Evaluator says: "
             +:+ Metrics.summary
                   (runEvaluator (AppState.tasks s) (AppState.history s)
                      (Some u)))
            (now 3%nat))
  ∧ r.2 = None
  ∧ injectedApiKey None = ""
  ∧ injectedApiKey (Some "") = "".
Proof.
  intros Hin Hu Hk r. subst r.
  unfold handleSendMessage, handleSendMessage_begin.
  rewrite Hin, Hu. cbn [orb negb bool_decide].
  rewrite bool_decide_eq_true_2 by eauto. cbn [negb].
  unfold handleSendMessage_settle. rewrite Hk, orb_true_r.
  cbn [fst snd AppState.messages AppState.pushMessage].
  rewrite last_snoc.
  split; [|repeat split].
  f_equal. unfold offlineReply. rewrite Hu. reflexivity.
Qed.

(** ** A focus session that completes its task *)

(** X19.  When a focus session of a positive number of minutes takes its
    task from below the target to the target, [updateTask] on its own
    would award the 50 xp of a completion, but the handler then sets the
    xp from the same earlier profile: the session ends with the xp field
    holding the old xp, 0 if missing, plus twice the minutes, the 50 not
    included. *)
Theorem focus_session_overwrites_completion_award
    (now : nat -> Z) (durationMs : Z) (s : AppState.t)
    (active old : Task.t) (u : UserProfile.t) :
  AppState.activeTaskForFocus s = Some active ->
  AppState.userProfile s = Some u ->
  find (fun x => String.eqb (Task.id x) (Task.id active)) (AppState.tasks s)
  = Some old ->
  Task.current old < Task.target old ->
  Task.target active <= Task.current (focusUpdate now durationMs active) ->
  0 < Math_round_div durationMs 60000 ->
  (∃ u1,
     AppState.userProfile
       (updateTask s s (focusUpdate now durationMs active)) = Some u1
     ∧ UserProfile.xp u1 = Some (default 0 (UserProfile.xp u) + 50)
     ∧ UserProfile.onboarded u1 = UserProfile.onboarded u
     ∧ UserProfile.presentation u1 = UserProfile.presentation u)
  ∧ (∃ u2,
       AppState.userProfile (handleFocusSessionEnd now durationMs s)
       = Some u2
       ∧ UserProfile.xp u2
         = Some (default 0 (UserProfile.xp u)
                 + Math_round_div durationMs 60000 * 2)
       ∧ UserProfile.onboarded u2 = UserProfile.onboarded u
       ∧ UserProfile.presentation u2 = UserProfile.presentation u).
Proof.
  intros Ha Hu Hf Hlt Hge Hpos. split.
  - unfold updateTask. rewrite Hu.
    change (Task.id (focusUpdate now durationMs active))
      with (Task.id active).
    rewrite Hf.
    change (Task.target (focusUpdate now durationMs active))
      with (Task.target active).
    apply Z.ltb_lt in Hlt. apply Z.leb_le in Hge. rewrite Hlt, Hge.
    cbn [andb AppState.userProfile AppState.setUserProfile].
    exact (xpAwarded_intro 50 (Some u)).
  - destruct (handleFocusSessionEnd_fields now durationMs s active Ha)
      as (_ & _ & Hp).
    cbv zeta in Hp. rewrite Hp, Hu.
    apply Z.ltb_lt in Hpos. rewrite Hpos.
    exact (xpAwarded_intro (Math_round_div durationMs 60000 * 2) (Some u)).
Qed.

(** * More of the program on sample data *)

Lemma getWeeklyProgress_within_recent_rates_witness :
  Sample.nineDays ≠ []
  ∧ Forall (fun d => 40 <= DayLog.completionRate (DayLog.stats d) <= 100)
      (sliceLast 7 Sample.nineDays)
  ∧ 40 <= getWeeklyProgress Sample.nineDays <= 100.
Proof.
  assert (H1 : Sample.nineDays ≠ []) by discriminate.
  assert (H2 : Forall
                 (fun d => 40 <= DayLog.completionRate (DayLog.stats d)
                           <= 100)
                 (sliceLast 7 Sample.nineDays))
    by (repeat (constructor; [simpl; lia|]); constructor).
  split; [exact H1|]. split; [exact H2|].
  exact (proj1 (getWeeklyProgress_within_recent_rates Sample.nineDays 40 100
                  H1 H2)).
Defined.

Lemma getWeeklyProgress_ignores_older_days_witness :
  length (drop 2 Sample.nineDays) = 7%nat
  ∧ getWeeklyProgress (take 2 Sample.nineDays ++ drop 2 Sample.nineDays)
    = getWeeklyProgress (drop 2 Sample.nineDays).
Proof.
  assert (H : length (drop 2 Sample.nineDays) = 7%nat) by reflexivity.
  split; [exact H|].
  exact (getWeeklyProgress_ignores_older_days (take 2 Sample.nineDays)
           (drop 2 Sample.nineDays) H).
Defined.

Lemma addTask_rejects_blank_title_witness :
  let blank := TaskForm.mk "   " 1 count "reps" in
  (∀ c, In c (list_ascii_of_string (TaskForm.newTaskTitle blank)) ->
        isAsciiWhiteSpace c = true)
  ∧ addTask Example.clock blank (Example.state None)
    = (Example.state None, blank).
Proof.
  intros blank.
  assert (H : ∀ c, In c (list_ascii_of_string (TaskForm.newTaskTitle blank))
                   -> isAsciiWhiteSpace c = true)
    by (intros c [<-|[<-|[<-|[]]]]; reflexivity).
  split; [exact H|].
  exact (addTask_rejects_blank_title Example.clock blank (Example.state None)
           H).
Defined.

Lemma addTask_appends_fresh_task_witness :
  let r := addTask Example.clock Sample.form (Example.state None) in
  (∃ c, In c (list_ascii_of_string (TaskForm.newTaskTitle Sample.form))
        ∧ (33 <= Ascii.nat_of_ascii c <= 126)%nat)
  ∧ (∃ newTask,
       AppState.tasks r.1 = [Example.reading; Example.deepWork; newTask]
       ∧ Task.title newTask = "Meditate"
       ∧ Task.unit newTask = "min"
       ∧ Task.current newTask = 0)
  ∧ UserProfile.xp <$> AppState.userProfile r.1 = Some (Some (120 + 10))
  ∧ TaskForm.newTaskTitle r.2 = ""
  ∧ TaskForm.newTaskTarget r.2 = 15.
Proof.
  intros r.
  assert (H : ∃ c, In c (list_ascii_of_string
                           (TaskForm.newTaskTitle Sample.form))
                   ∧ (33 <= Ascii.nat_of_ascii c <= 126)%nat).
  { exists (Ascii.ascii_of_nat 77).
    split; [left; reflexivity | vm_compute; lia]. }
  split; [exact H|].
  destruct (addTask_appends_fresh_task Example.clock Sample.form
              (Example.state None) H)
    as ((newTask & Ht & Hti & _ & _ & Hun & Hc & _) & _ & Hxp & _ & Hf1
        & Hf2 & _).
  assert (Hxp' : ∃ u',
            AppState.userProfile r.1 = Some u'
            ∧ UserProfile.xp u' = Some (120 + 10)
            ∧ UserProfile.onboarded u' = UserProfile.onboarded Example.user
            ∧ UserProfile.presentation u'
              = UserProfile.presentation Example.user) by exact Hxp.
  destruct Hxp' as (u' & Hu1 & Hu2 & _).
  split.
  { exists newTask. split; [exact Ht|]. split; [exact Hti|].
    split; [exact Hun | exact Hc]. }
  split; [rewrite Hu1; simpl; rewrite Hu2; reflexivity|].
  split; [exact Hf1 | exact Hf2].
Defined.

Lemma updateTask_unknown_id_is_noop_witness :
  let stray :=
    Task.mk "0" "Gone" "General" count 1 "reps" 1 (Some []) [] 0 0 in
  (∀ x, In x (AppState.tasks (Example.state None)) ->
        Task.id x ≠ Task.id stray)
  ∧ updateTask (Example.state None) (Example.state None) stray
    = Example.state None.
Proof.
  intros stray.
  assert (H : ∀ x, In x (AppState.tasks (Example.state None)) ->
                   Task.id x ≠ Task.id stray)
    by (intros x [<-|[<-|[]]]; discriminate).
  split; [exact H|].
  exact (updateTask_unknown_id_is_noop (Example.state None) stray H).
Defined.

Lemma persist_then_startup_restores_witness :
  let s := Example.state None in
  let st' := persistEffect "2024-06-10" s Storage.empty in
  AppState.theme s ≠ ""
  ∧ (AppState.userProfile s = None ->
     parsesOrAbsent (Storage.elevate_user Storage.empty) = true)
  ∧ ∃ s',
      startupEffect Evaluator.runEvaluator "2024-06-10" Example.clock st'
      = Some (s', st')
      ∧ AppState.tasks s' = [Example.reading; Example.deepWork]
      ∧ AppState.userProfile s' = Some Example.user.
Proof.
  intros s st'.
  assert (H1 : AppState.theme s ≠ "") by discriminate.
  assert (H2 : AppState.userProfile s = None ->
               parsesOrAbsent (Storage.elevate_user Storage.empty) = true)
    by (intros _; reflexivity).
  split; [exact H1|]. split; [exact H2|].
  destruct (persist_then_startup_restores Evaluator.runEvaluator
              "2024-06-10" Example.clock s Storage.empty H1 H2)
    as (s' & Hrun & Ht & _ & _ & _ & _ & _ & Hu).
  exists s'. split; [exact Hrun|]. split; [exact Ht|].
  exact (Hu Example.user eq_refl).
Defined.

Lemma ended_day_is_not_archived_again_witness :
  let s := Example.state None in
  let ended :=
    performEndDay Evaluator.runEvaluator "2024-06-09" Example.clock
      "Onward." s Storage.empty in
  "2024-06-09" ≠ ""
  ∧ "2024-06-09" ≠ "2024-06-10"
  ∧ (AppState.userProfile s = None ->
     parsesOrAbsent (Storage.elevate_user Storage.empty) = true)
  ∧ ∃ s' st',
      startupEffect Evaluator.runEvaluator "2024-06-10" Example.clock
        (persistEffect "2024-06-09" ended.1 ended.2) = Some (s', st')
      ∧ AppState.history s' = AppState.history ended.1
      ∧ length (AppState.history s') = 1%nat.
Proof.
  intros s ended.
  assert (H1 : "2024-06-09" ≠ "") by discriminate.
  assert (H2 : "2024-06-09" ≠ "2024-06-10") by discriminate.
  assert (H3 : AppState.userProfile s = None ->
               parsesOrAbsent (Storage.elevate_user Storage.empty) = true)
    by (intros _; reflexivity).
  split; [exact H1|]. split; [exact H2|]. split; [exact H3|].
  destruct (ended_day_is_not_archived_again Evaluator.runEvaluator
              "2024-06-09" "2024-06-10" Example.clock Example.clock
              "Onward." s Storage.empty H1 H2 H3)
    as (s' & st' & Hrun & Hh & Hlen & _).
  exists s', st'. split; [exact Hrun|]. split; [exact Hh | exact Hlen].
Defined.

Lemma automatic_archive_log_content_witness :
  storageParses Example.yesterday = true
  ∧ Storage.elevate_last_date Example.yesterday = Some "2024-06-09"
  ∧ "2024-06-09" ≠ ""
  ∧ "2024-06-09" ≠ "2024-06-10"
  ∧ hasProgress (storedTasks Example.yesterday) = true
  ∧ ∃ s' st',
      startupEffect Evaluator.runEvaluator "2024-06-10" Example.clock
        Example.yesterday = Some (s', st')
      ∧ AppState.history s'
        = [DayLog.mk "2024-06-09" [Example.reading; Example.deepWork]
             (DayLog.mkStats 38 0)].
Proof.
  assert (H1 : storageParses Example.yesterday = true) by reflexivity.
  assert (H2 : Storage.elevate_last_date Example.yesterday
               = Some "2024-06-09") by reflexivity.
  assert (H3 : "2024-06-09" ≠ "") by discriminate.
  assert (H4 : "2024-06-09" ≠ "2024-06-10") by discriminate.
  assert (H5 : hasProgress (storedTasks Example.yesterday) = true)
    by reflexivity.
  do 5 (split; [assumption|]).
  destruct (automatic_archive_log_content Evaluator.runEvaluator
              "2024-06-10" Example.clock Example.yesterday "2024-06-09"
              H1 H2 H3 H4 H5)
    as (s' & st' & Hrun & Hh & _).
  exists s', st'. split; [exact Hrun | exact Hh].
Defined.

Lemma rollover_message_without_archive_witness :
  storageParses Example.yesterdayIdle = true
  ∧ Storage.elevate_last_date Example.yesterdayIdle = Some "2024-06-09"
  ∧ "2024-06-09" ≠ ""
  ∧ "2024-06-09" ≠ "2024-06-10"
  ∧ hasProgress (storedTasks Example.yesterdayIdle) = false
  ∧ ∃ s' st' m,
      startupEffect Evaluator.runEvaluator "2024-06-10" Example.clock
        Example.yesterdayIdle = Some (s', st')
      ∧ AppState.history s' = []
      ∧ last (AppState.messages s') = Some m
      ∧ ChatMessage.text m
        = "New day detected. Previous data from 2024-06-09 has been archived.".
Proof.
  assert (H1 : storageParses Example.yesterdayIdle = true) by reflexivity.
  assert (H2 : Storage.elevate_last_date Example.yesterdayIdle
               = Some "2024-06-09") by reflexivity.
  assert (H3 : "2024-06-09" ≠ "") by discriminate.
  assert (H4 : "2024-06-09" ≠ "2024-06-10") by discriminate.
  assert (H5 : hasProgress (storedTasks Example.yesterdayIdle) = false)
    by reflexivity.
  do 5 (split; [assumption|]).
  destruct (rollover_message_without_archive Evaluator.runEvaluator
              "2024-06-10" Example.clock Example.yesterdayIdle "2024-06-09"
              H1 H2 H3 H4 H5)
    as (s' & st' & m & Hrun & Hh & _ & Hl & _ & Ht).
  exists s', st', m. split; [exact Hrun|]. split; [exact Hh|].
  split; [exact Hl | exact Ht].
Defined.

Lemma malformed_tasks_read_as_empty_witness :
  storageParses Sample.brokenTasks = true
  ∧ Storage.elevate_tasks Sample.brokenTasks = Some Malformed
  ∧ ∃ s' st',
      startupEffect Evaluator.runEvaluator "2024-06-10" Example.clock
        Sample.brokenTasks = Some (s', st')
      ∧ AppState.tasks s' = []
      ∧ Storage.elevate_tasks st' = Some (WellFormed []).
Proof.
  assert (H1 : storageParses Sample.brokenTasks = true) by reflexivity.
  assert (H2 : Storage.elevate_tasks Sample.brokenTasks = Some Malformed)
    by reflexivity.
  do 2 (split; [assumption|]).
  destruct (malformed_tasks_read_as_empty Evaluator.runEvaluator
              "2024-06-10" Example.clock Sample.brokenTasks H1 H2)
    as (s' & st' & Hrun & Ht & _ & _ & Hk).
  exists s', st'. split; [exact Hrun|]. split; [exact Ht | exact Hk].
Defined.

(** A store whose history does not parse aborts the start-up. *)
Example startupEffect_aborts_on_broken_history :
  startupEffect Evaluator.runEvaluator "2024-06-10" Example.clock
    Sample.brokenHistory = None.
Proof. reflexivity. Qed.

Lemma handleSendMessage_always_answers_witness :
  let s := Example.state None in
  let r := handleSendMessage Evaluator.runEvaluator "key" Example.clock
             (Responded (Some "Keep going.")) Sample.chat s in
  trimIsEmpty (ChatForm.inputText Sample.chat) = false
  ∧ AppState.userProfile s = Some Example.user
  ∧ (∃ reply,
       AppState.messages r.1.1
       = [ChatMessage.mk (toString (Example.clock 0)) "user"
            "How am I doing?" (Example.clock 1); reply]
       ∧ ChatMessage.role reply = "model")
  ∧ r.1.2 = ChatForm.mk "" false.
Proof.
  intros s r.
  assert (H1 : trimIsEmpty (ChatForm.inputText Sample.chat) = false)
    by reflexivity.
  assert (H2 : AppState.userProfile s = Some Example.user) by reflexivity.
  do 2 (split; [assumption|]).
  destruct (handleSendMessage_always_answers Evaluator.runEvaluator "key"
              Example.clock (Responded (Some "Keep going.")) Sample.chat s
              Example.user H1 H2)
    as ((reply & Hm & Hr & _) & Hf & _).
  split; [|exact Hf]. exists reply. split; [exact Hm | exact Hr].
Defined.

Lemma handleSendMessage_ignores_blank_input_witness :
  let blank := ChatForm.mk "  " false in
  ((∀ c, In c (list_ascii_of_string (ChatForm.inputText blank)) ->
         isAsciiWhiteSpace c = true)
   ∨ AppState.userProfile (Example.state None) = None)
  ∧ handleSendMessage Evaluator.runEvaluator "key" Example.clock
      (Responded (Some "Keep going.")) blank (Example.state None)
    = (Example.state None, blank, None).
Proof.
  intros blank.
  assert (H : (∀ c, In c (list_ascii_of_string (ChatForm.inputText blank))
                    -> isAsciiWhiteSpace c = true)
              ∨ AppState.userProfile (Example.state None) = None)
    by (left; intros c [<-|[<-|[]]]; reflexivity).
  split; [exact H|].
  exact (handleSendMessage_ignores_blank_input Evaluator.runEvaluator "key"
           Example.clock (Responded (Some "Keep going.")) blank
           (Example.state None) H).
Defined.

Lemma handleSendMessage_without_api_key_witness :
  let s := Example.state None in
  let r := handleSendMessage Evaluator.runEvaluator (injectedApiKey None)
             Example.clock (Responded (Some "Keep going.")) Sample.chat s in
  trimIsEmpty (ChatForm.inputText Sample.chat) = false
  ∧ AppState.userProfile s = Some Example.user
  ∧ trimIsEmpty (injectedApiKey None) = true
  ∧ (ChatMessage.text <$> last (AppState.messages r.1.1))
    = Some ("Offline Mode (Check API Key configuration). Evaluator says: "
            +:+ "38% complete, streak 0")
  ∧ r.2 = None.
Proof.
  intros s r.
  assert (H1 : trimIsEmpty (ChatForm.inputText Sample.chat) = false)
    by reflexivity.
  assert (H2 : AppState.userProfile s = Some Example.user) by reflexivity.
  assert (H3 : trimIsEmpty (injectedApiKey None) = true) by reflexivity.
  do 3 (split; [assumption|]).
  destruct (handleSendMessage_without_api_key Evaluator.runEvaluator None
              Example.clock (Responded (Some "Keep going.")) Sample.chat s
              Example.user H1 H2 H3)
    as (Hl & Hs & _).
  split; [|exact Hs]. fold r in Hl. rewrite Hl. reflexivity.
Defined.

Lemma focus_session_overwrites_completion_award_witness :
  let s := Example.state (Some Example.deepWork) in
  AppState.activeTaskForFocus s = Some Example.deepWork
  ∧ AppState.userProfile s = Some Example.user
  ∧ find (fun x => String.eqb (Task.id x) (Task.id Example.deepWork))
      (AppState.tasks s) = Some Example.deepWork
  ∧ Task.current Example.deepWork < Task.target Example.deepWork
  ∧ Task.target Example.deepWork
    <= Task.current (focusUpdate Example.clock 1800000 Example.deepWork)
  ∧ 0 < Math_round_div 1800000 60000
  ∧ UserProfile.xp
      <$> AppState.userProfile
            (updateTask s s
               (focusUpdate Example.clock 1800000 Example.deepWork))
    = Some (Some (120 + 50))
  ∧ UserProfile.xp
      <$> AppState.userProfile (handleFocusSessionEnd Example.clock 1800000 s)
    = Some (Some (120 + 30 * 2)).
Proof.
  intros s.
  assert (H1 : AppState.activeTaskForFocus s = Some Example.deepWork)
    by reflexivity.
  assert (H2 : AppState.userProfile s = Some Example.user) by reflexivity.
  assert (H3 : find (fun x => String.eqb (Task.id x)
                                (Task.id Example.deepWork))
                 (AppState.tasks s) = Some Example.deepWork) by reflexivity.
  assert (H4 : Task.current Example.deepWork < Task.target Example.deepWork)
    by reflexivity.
  assert (H5 : Task.target Example.deepWork
               <= Task.current (focusUpdate Example.clock 1800000
                                  Example.deepWork))
    by (vm_compute; discriminate).
  assert (H6 : 0 < Math_round_div 1800000 60000) by reflexivity.
  do 6 (split; [assumption|]).
  destruct (focus_session_overwrites_completion_award Example.clock 1800000
              s Example.deepWork Example.deepWork Example.user
              H1 H2 H3 H4 H5 H6)
    as ((u1 & Ha1 & Ha2 & _) & (u2 & Hb1 & Hb2 & _)).
  split.
  - rewrite Ha1. simpl. rewrite Ha2. reflexivity.
  - rewrite Hb1. simpl. rewrite Hb2. reflexivity.
Defined.
